(** * Invoice Agent API: a shallow embedding of [invoice_agent_api.py]

    The Flask application of [src/foundry_agent_demo/invoice_agent_api.py]
    is embedded as state-passing functions in a small state-and-exception
    monad.  Everything the module does not define itself (the Azure SDK,
    [os.getenv], [datetime.now], Flask's [request.get_json], the rendering of
    a value inside an f-string) is a field of the record [Runtime], so a
    theorem holds for every behaviour of those collaborators, except for
    what it assumes of them in its hypotheses. *)

From Stdlib Require Import String Ascii ZArith List Bool Lia.
From stdpp Require Import base strings list option gmap.

Set Warnings "-register-all".
Local Open Scope string_scope.
Local Open Scope Z_scope.

(** ** Python values *)

(** The values that travel through the module: what [request.get_json]
    parses, what the SDK objects hold in their attributes, and what
    [jsonify] is handed.  A [dict] is an association list in insertion
    order; floats are not modelled. *)
Inductive value : Type :=
| VNone
| VBool (b : bool)
| VInt (n : Z)
| VStr (s : string)
| VList (xs : list value)
| VDict (kvs : list (string * value)).

Definition Dict : Type := list (string * value).

(** An instance of [Exception]: its class name and what [str(e)] gives. *)
Record exn : Type := Exception { exn_class : string; exn_str : string }.

(** The result of evaluating a Python expression. *)
Inductive outcome (A : Type) : Type :=
| Return (a : A)
| Raise (e : exn).
Arguments Return {A} a.
Arguments Raise {A} e.

(** [bool(v)] *)
Definition truthy (v : value) : bool :=
  match v with
  | VNone => false
  | VBool b => b
  | VInt n => negb (n =? 0)
  | VStr s => negb (String.eqb s "")
  | VList xs => match xs with [] => false | _ :: _ => true end
  | VDict kvs => match kvs with [] => false | _ :: _ => true end
  end.

(** [d[k]] on the association list of a dict. *)
Fixpoint dict_lookup (k : string) (d : Dict) : option value :=
  match d with
  | [] => None
  | (k', v) :: d' => if String.eqb k k' then Some v else dict_lookup k d'
  end.

Arguments dict_lookup : simpl nomatch.

(** [v == s] for a string literal [s]. *)
Definition py_eq_str (v : value) (s : string) : bool :=
  match v with
  | VStr s' => String.eqb s' s
  | _ => false
  end.

Definition type_name (v : value) : string :=
  match v with
  | VNone => "NoneType"
  | VBool _ => "bool"
  | VInt _ => "int"
  | VStr _ => "str"
  | VList _ => "list"
  | VDict _ => "dict"
  end.

Definition TypeError (msg : string) : exn := Exception "TypeError" msg.
Definition AttributeError (msg : string) : exn := Exception "AttributeError" msg.
Definition KeyError (msg : string) : exn := Exception "KeyError" msg.
Definition IndexError (msg : string) : exn := Exception "IndexError" msg.

(** [k in v] for a string literal [k]: key membership on a dict, element
    membership on a list, substring test on a string, [TypeError]
    otherwise. *)
Definition py_contains (k : string) (v : value) : outcome bool :=
  match v with
  | VDict kvs => Return (bool_decide (is_Some (dict_lookup k kvs)))
  | VList xs => Return (existsb (fun x => py_eq_str x k) xs)
  | VStr s => Return (bool_decide (is_Some (String.index 0 k s)))
  | _ => Raise (TypeError ("argument of type '" +:+ type_name v +:+ "' is not iterable"))
  end.

(** [v[k]] for a string literal [k]. *)
Definition py_getitem (v : value) (k : string) : outcome value :=
  match v with
  | VDict kvs =>
      match dict_lookup k kvs with
      | Some x => Return x
      | None => Raise (KeyError ("'" +:+ k +:+ "'"))
      end
  | VList _ => Raise (TypeError "list indices must be integers or slices, not str")
  | VStr _ => Raise (TypeError "string indices must be integers, not 'str'")
  | _ => Raise (TypeError ("'" +:+ type_name v +:+ "' object is not subscriptable"))
  end.

(** [v.get(k)]: [None] when the key is missing. *)
Definition py_get (v : value) (k : string) : outcome value :=
  match v with
  | VDict kvs => Return (default VNone (dict_lookup k kvs))
  | _ => Raise (AttributeError ("'" +:+ type_name v +:+ "' object has no attribute 'get'"))
  end.

(** [xs[-1]] *)
Definition py_last {A : Type} (xs : list A) : outcome A :=
  match last xs with
  | Some x => Return x
  | None => Raise (IndexError "list index out of range")
  end.

(** ** The state-and-exception monad

    A computation takes a state, yields a value or raises, and always hands
    back the state: the effects made before a [raise] stay. *)
Definition M (S A : Type) : Type := S -> outcome A * S.

#[global] Instance M_ret {S : Type} : MRet (M S) :=
  fun A a s => (Return a, s).

#[global] Instance M_bind {S : Type} : MBind (M S) :=
  fun A B f m s =>
    match m s with
    | (Return a, s') => f a s'
    | (Raise e, s') => (Raise e, s')
    end.

(** [raise e] *)
Definition throw {S A : Type} (e : exn) : M S A := fun s => (Raise e, s).

(** Evaluating an expression that touches no state. *)
Definition eval {S A : Type} (o : outcome A) : M S A := fun s => (o, s).

(** [try: body except Exception as e: handler] *)
Definition try_except {S A : Type} (body : M S A) (handler : exn -> M S A) : M S A :=
  fun s =>
    match body s with
    | (Return a, s') => (Return a, s')
    | (Raise e, s') => handler e s'
    end.

(** A function body with a frame of local variables [L] over the state [S]. *)
Definition lift {L S A : Type} (m : M S A) : M (L * S) A :=
  fun ls =>
    let '(r, s') := m ls.2 in (r, (ls.1, s')).

Definition get_local {L S : Type} : M (L * S) L := fun ls => (Return ls.1, ls).

Definition set_local {L S : Type} (l : L) : M (L * S) unit :=
  fun ls => (Return tt, (l, ls.2)).

(** Entering a function: the frame is initialised and dropped on exit. *)
Definition with_locals {L S A : Type} (l : L) (m : M (L * S) A) : M S A :=
  fun s => let '(r, ls) := m (l, s) in (r, ls.2).

(** ** SDK objects *)

Inductive ListSortOrder : Type := ASCENDING | DESCENDING.

(** What [project_client.agents.get_agent] returns; [agent_name] is [None]
    when [hasattr(agent, 'name')] is false. *)
Record Agent : Type := { agent_name : option value }.

(** What [threads.create] returns: the evaluation of [thread.id]. *)
Record AgentThread : Type := { thread_obj_id : outcome value }.

(** What [runs.create_and_process] returns: the evaluations of [run.status]
    and [run.last_error]. *)
Record ThreadRun : Type := { run_status : outcome value; run_last_error : outcome value }.

(** One element of [msg.text_messages]: the evaluation of [.text.value]. *)
Record MessageTextContent : Type := { text_value : outcome value }.

(** One listed message: the evaluations of [msg.text_messages] and
    [msg.role]; [msg_created_at] is [None] when [hasattr(msg, 'created_at')]
    is false and otherwise the evaluation of [msg.created_at.isoformat()]. *)
Record ThreadMessage : Type := {
  msg_text_messages : outcome (list MessageTextContent);
  msg_role : outcome value;
  msg_created_at : option (outcome string)
}.

(** What [messages.list] returns: iterating it yields [paged_items] and
    then stops, or raises [paged_fault] after them. *)
Record ItemPaged : Type := {
  paged_items : list ThreadMessage;
  paged_fault : option exn
}.

(** ** The world outside the module *)

(** A call on the agent platform, as a test double would record it. *)
Inductive Call : Type :=
| GetAgent (agent_id : value)
| ThreadsCreate
| MessagesCreate (thread : value) (role : string) (content : value)
| RunsCreateAndProcess (thread : value) (agent : value)
| MessagesList (thread : value) (order : ListSortOrder).

Inductive Level : Type := INFO | ERROR.

(** The collaborators.  [P] is the state of the platform and the clock,
    [Cred] a credential, [Client] the project client handle. *)
Record Runtime (P Cred Client : Type) : Type := {
  os_environ : gmap string string;
  now_isoformat : P -> string * P;
  py_format : value -> string;
  DefaultAzureCredential : P -> outcome Cred * P;
  AIProjectClient : Cred -> value -> P -> outcome Client * P;
  get_agent : Client -> value -> P -> outcome Agent * P;
  threads_create : Client -> P -> outcome AgentThread * P;
  messages_create : Client -> value -> string -> value -> P -> outcome unit * P;
  runs_create_and_process : Client -> value -> value -> P -> outcome ThreadRun * P;
  messages_list : Client -> value -> ListSortOrder -> P -> outcome ItemPaged * P
}.
Arguments os_environ {P Cred Client} _.
Arguments now_isoformat {P Cred Client} _ _.
Arguments py_format {P Cred Client} _ _.
Arguments DefaultAzureCredential {P Cred Client} _ _.
Arguments AIProjectClient {P Cred Client} _ _ _ _.
Arguments get_agent {P Cred Client} _ _ _ _.
Arguments threads_create {P Cred Client} _ _ _.
Arguments messages_create {P Cred Client} _ _ _ _ _ _.
Arguments runs_create_and_process {P Cred Client} _ _ _ _ _.
Arguments messages_list {P Cred Client} _ _ _ _ _.

(** The state a request handler runs in: the platform, the platform calls
    made so far (oldest first) and the lines logged so far. *)
Record World (P : Type) : Type := {
  platform : P;
  calls : list Call;
  logged : list (Level * string)
}.
Arguments platform {P} _.
Arguments calls {P} _.
Arguments logged {P} _.
Arguments Build_World {P} _ _ _.

(** One Flask response: [jsonify(body), status]. *)
Record Response : Type := { status : Z; body : Dict }.

(** One Flask request, as far as the handlers read it: what
    [request.get_json()] evaluates to. *)
Record Request : Type := { get_json : outcome value }.

(** The instance attributes of [InvoiceAgentService]. *)
Record InvoiceAgentService (Client : Type) : Type := {
  project_client : option Client;
  agent_id : value
}.
Arguments project_client {Client} _.
Arguments agent_id {Client} _.
Arguments Build_InvoiceAgentService {Client} _ _.

(** ** The module *)

Section Api.
Context {P Cred Client : Type} (rt : Runtime P Cred Client).

Abbreviation World := (World P).
Abbreviation Service := (InvoiceAgentService Client).

(** *** Effects on the world *)

(** A call on the agent platform: recorded, then answered by the
    platform. *)
Definition platform_call {A : Type} (c : Call) (op : P -> outcome A * P) : M World A :=
  fun w =>
    let '(r, p') := op (platform w) in
    (r, Build_World p' (calls w ++ [c]) (logged w)).

(** What happens outside the agent's operations (credential and client
    construction, the clock, walking a listing already obtained): it
    touches the platform state, and is not recorded as a call. *)
Definition external {A : Type} (op : P -> outcome A * P) : M World A :=
  fun w =>
    let '(r, p') := op (platform w) in
    (r, Build_World p' (calls w) (logged w)).

(** [datetime.now().isoformat()]: reading the clock. *)
Definition datetime_now_isoformat : M P string :=
  fun p => let '(t, p') := now_isoformat rt p in (Return t, p').

Definition logger (lvl : Level) (line : string) : M World unit :=
  fun w => (Return tt, Build_World (platform w) (calls w) (logged w ++ [(lvl, line)])).

(** [os.getenv(name)] *)
Definition os_getenv (name : string) : value :=
  match os_environ rt !! name with
  | Some s => VStr s
  | None => VNone
  end.

(** [self.project_client.agents]: an [AttributeError] on [None]. *)
Definition agents {S : Type} (self : Service) : M S Client :=
  match project_client self with
  | Some client => mret client
  | None => throw (AttributeError "'NoneType' object has no attribute 'agents'")
  end.

(** *** [InvoiceAgentService.setup_client] (lines 26-52)

    The frame holds [self], whose attributes the method assigns. *)
Definition setup_client : M (Service * World) unit :=
  try_except
    (let endpoint := os_getenv "AZURE_AI_PROJECT_ENDPOINT" in
     self ← get_local;
     set_local (Build_InvoiceAgentService (project_client self)
                  (os_getenv "AZURE_AI_AGENT_ID"));;
     credential ← lift (external (DefaultAzureCredential rt));
     lift (logger INFO "Using Default Azure Credential for authentication");;
     client ← lift (external (AIProjectClient rt credential endpoint));
     self ← get_local;
     set_local (Build_InvoiceAgentService (Some client) (agent_id self));;
     self ← get_local;
     client ← agents self;
     agent ← lift (platform_call (GetAgent (agent_id self))
                     (get_agent rt client (agent_id self)));
     lift (logger INFO ("Successfully connected to agent: " +:+
                        match agent_name agent with
                        | Some name => py_format rt name
                        | None => "Unknown"
                        end)))
    (fun e =>
       lift (logger ERROR ("Failed to setup Azure AI Project client: " +:+ exn_str e));;
       throw e).

(** [InvoiceAgentService.__init__] (lines 21-24): the object is returned
    only when [setup_client] does not raise. *)
Definition InvoiceAgentService_init : M World Service :=
  fun w =>
    let '(r, (self, w')) := setup_client (Build_InvoiceAgentService None VNone, w) in
    match r with
    | Return _ => (Return self, w')
    | Raise e => (Raise e, w')
    end.

(** Module level, lines 117-122: the global [invoice_service], [None]
    when the constructor raised. *)
Definition invoice_service (w : World) : option Service * World :=
  match InvoiceAgentService_init w with
  | (Return self, w') => (Some self, w')
  | (Raise e, w') =>
      (None, Build_World (platform w') (calls w')
               (logged w' ++ [(ERROR, "Failed to initialize invoice service: " +:+ exn_str e)]))
  end.

(** *** The formatting loop (lines 92-99 and 207-214)

    [conversation] is the list built so far; [items] and [fault] are what
    is left of the iteration over [messages]. *)
Fixpoint format_loop (items : list ThreadMessage) (fault : option exn)
    (conversation : list value) : M P (list value) :=
  match items with
  | [] =>
      match fault with
      | Some e => throw e
      | None => mret conversation
      end
  | msg :: items' =>
      text_messages ← eval (msg_text_messages msg);
      match text_messages with
      | _ :: _ =>
          role ← eval (msg_role msg);
          text_messages ← eval (msg_text_messages msg);
          last_text ← eval (py_last text_messages);
          content ← eval (text_value last_text);
          timestamp ← match msg_created_at msg with
                      | Some isoformat => eval isoformat
                      | None => datetime_now_isoformat
                      end;
          format_loop items' fault
            (conversation ++ [VDict [("role", role); ("content", content);
                                     ("timestamp", VStr timestamp)]])
      | [] => format_loop items' fault conversation
      end
  end.

Definition format_messages (messages : ItemPaged) : M P (list value) :=
  format_loop (paged_items messages) (paged_fault messages) [].

(** *** [InvoiceAgentService.process_invoice_message] (lines 54-115)

    The frame holds the local variable [thread_id], which the [except]
    clause reads as it stands when the exception arrives. *)
Definition process_invoice_message (self : Service) (user_message thread_id : value)
    : M World Dict :=
  with_locals thread_id
    (try_except
       (thread_id ← get_local;
        (if negb (truthy thread_id) then
           client ← agents self;
           thread ← lift (platform_call ThreadsCreate (threads_create rt client));
           thread_id ← eval (thread_obj_id thread);
           set_local thread_id;;
           lift (logger INFO ("Created new thread: " +:+ py_format rt thread_id))
         else mret tt);;
        thread_id ← get_local;
        client ← agents self;
        lift (platform_call (MessagesCreate thread_id "user" user_message)
                (messages_create rt client thread_id "user" user_message));;
        client ← agents self;
        run ← lift (platform_call (RunsCreateAndProcess thread_id (agent_id self))
                      (runs_create_and_process rt client thread_id (agent_id self)));
        run_status ← eval (run_status run);
        if py_eq_str run_status "failed" then
          last_error ← eval (run_last_error run);
          let error_msg := "Agent run failed: " +:+ py_format rt last_error in
          lift (logger ERROR error_msg);;
          mret [("success", VBool false); ("error", VStr error_msg);
                ("thread_id", thread_id)]
        else
          client ← agents self;
          messages ← lift (platform_call (MessagesList thread_id ASCENDING)
                             (messages_list rt client thread_id ASCENDING));
          conversation ← lift (external (format_messages messages));
          mret [("success", VBool true); ("thread_id", thread_id);
                ("conversation", VList conversation); ("run_status", run_status)])
       (fun e =>
          let error_msg := "Error processing message: " +:+ exn_str e in
          lift (logger ERROR error_msg);;
          thread_id ← get_local;
          mret [("success", VBool false); ("error", VStr error_msg);
                ("thread_id", thread_id)])).

(** *** The routes *)

(** [jsonify(d), code]: the response holds the dict it was built from.  In
    which order Flask writes the keys into the text it sends is not
    modelled. *)
Definition jsonify (d : Dict) (code : Z) : Response := {| status := code; body := d |}.

Definition service_not_available : Response :=
  jsonify [("success", VBool false); ("error", VStr "Invoice service not available")] 503.

(** [GET /] (lines 124-132) *)
Definition health_check (invoice_service : option Service) : M World Response :=
  timestamp ← external datetime_now_isoformat;
  mret (jsonify [("status", VStr "healthy"); ("service", VStr "Invoice Agent API");
                 ("timestamp", VStr timestamp);
                 ("agent_available", VBool (bool_decide (is_Some invoice_service)))] 200).

(** [POST /api/invoice/chat] (lines 134-167) *)
Definition chat_with_agent (invoice_service : option Service) (request : Request)
    : M World Response :=
  match invoice_service with
  | None => mret service_not_available
  | Some service =>
      try_except
        (data ← eval (get_json request);
         missing ← (if negb (truthy data) then mret true
                    else present ← eval (py_contains "message" data);
                         mret (negb present));
         if (missing : bool) then
           mret (jsonify [("success", VBool false);
                          ("error", VStr "Missing 'message' in request body")] 400)
         else
           user_message ← eval (py_getitem data "message");
           thread_id ← eval (py_get data "thread_id");
           result ← process_invoice_message service user_message thread_id;
           success ← eval (py_getitem (VDict result) "success");
           if truthy success then mret (jsonify result 200)
           else mret (jsonify result 500))
        (fun e =>
           logger ERROR ("Error in chat endpoint: " +:+ exn_str e);;
           mret (jsonify [("success", VBool false);
                          ("error", VStr ("Internal server error: " +:+ exn_str e))] 500))
  end.

(** [POST /api/invoice/new-thread] (lines 169-190) *)
Definition create_new_thread (invoice_service : option Service) : M World Response :=
  match invoice_service with
  | None => mret service_not_available
  | Some service =>
      try_except
        (client ← agents service;
         thread ← platform_call ThreadsCreate (threads_create rt client);
         thread_id ← eval (thread_obj_id thread);
         created_at ← external datetime_now_isoformat;
         mret (jsonify [("success", VBool true); ("thread_id", thread_id);
                        ("created_at", VStr created_at)] 200))
        (fun e =>
           logger ERROR ("Error creating thread: " +:+ exn_str e);;
           mret (jsonify [("success", VBool false);
                          ("error", VStr ("Failed to create thread: " +:+ exn_str e))] 500))
  end.

(** [GET /api/invoice/thread/<thread_id>/messages] (lines 192-227) *)
Definition get_thread_messages (invoice_service : option Service) (thread_id : value)
    : M World Response :=
  match invoice_service with
  | None => mret service_not_available
  | Some service =>
      try_except
        (client ← agents service;
         messages ← platform_call (MessagesList thread_id ASCENDING)
                      (messages_list rt client thread_id ASCENDING);
         conversation ← external (format_messages messages);
         mret (jsonify [("success", VBool true); ("thread_id", thread_id);
                        ("messages", VList conversation)] 200))
        (fun e =>
           logger ERROR ("Error getting thread messages: " +:+ exn_str e);;
           mret (jsonify [("success", VBool false);
                          ("error", VStr ("Failed to get messages: " +:+ exn_str e))] 500))
  end.

End Api.

(** ** Scenarios: what the platform answers during one call

    The statements below speak about the platform alone (its state before
    and after each operation), never about the handlers. *)

Section Scenarios.
Context {P Cred Client : Type} (rt : Runtime P Cred Client).

Abbreviation Service := (InvoiceAgentService Client).

(** The thread a chat call works with: the caller's when it is truthy,
    otherwise the one the platform creates, taking the platform from [p]
    to [p']. *)
Inductive uses_thread (self : Service) (supplied : value) (p : P) : value -> P -> Prop :=
| thread_supplied :
    truthy supplied = true ->
    uses_thread self supplied p supplied p
| thread_created client thread new_id p' :
    truthy supplied = false ->
    project_client self = Some client ->
    threads_create rt client p = (Return thread, p') ->
    thread_obj_id thread = Return new_id ->
    uses_thread self supplied p new_id p'.

(** The thread identifier known when the envelope of a chat call is
    built: supplied by the caller, or created during the call; when the
    creation does not deliver one, what the caller passed. *)
Definition known_thread_id (self : Service) (supplied : value) (p : P) : value :=
  if truthy supplied then supplied
  else
    match project_client self with
    | Some client =>
        match threads_create rt client p with
        | (Return thread, _) =>
            match thread_obj_id thread with
            | Return new_id => new_id
            | Raise _ => supplied
            end
        | (Raise _, _) => supplied
        end
    | None => supplied
    end.

(** The run of a chat call came back: the thread is there, the user
    message was posted and the platform returned [run]. *)
Definition run_returned (self : Service) (user_message supplied : value) (p : P)
    (thread : value) (run : ThreadRun) (p' : P) : Prop :=
  exists client p1 p2,
    project_client self = Some client /\
    uses_thread self supplied p thread p1 /\
    messages_create rt client thread "user" user_message p1 = (Return tt, p2) /\
    runs_create_and_process rt client thread (agent_id self) p2 = (Return run, p').

(** An exception [e] raised by one of the steps of a chat call, with the
    thread identifier known at that point. *)
Inductive raises_at (self : Service) (user_message supplied : value) (p : P)
    : exn -> value -> Prop :=
| raises_thread_creation client e p' :
    truthy supplied = false ->
    project_client self = Some client ->
    threads_create rt client p = (Raise e, p') ->
    raises_at self user_message supplied p e supplied
| raises_message_posting client thread p1 e p' :
    project_client self = Some client ->
    uses_thread self supplied p thread p1 ->
    messages_create rt client thread "user" user_message p1 = (Raise e, p') ->
    raises_at self user_message supplied p e thread
| raises_run_execution client thread p1 p2 e p' :
    project_client self = Some client ->
    uses_thread self supplied p thread p1 ->
    messages_create rt client thread "user" user_message p1 = (Return tt, p2) ->
    runs_create_and_process rt client thread (agent_id self) p2 = (Raise e, p') ->
    raises_at self user_message supplied p e thread
| raises_message_listing client thread run run_state p3 e p' :
    project_client self = Some client ->
    run_returned self user_message supplied p thread run p3 ->
    run_status run = Return run_state ->
    py_eq_str run_state "failed" = false ->
    messages_list rt client thread ASCENDING p3 = (Raise e, p') ->
    raises_at self user_message supplied p e thread
| raises_message_reshaping client thread run run_state p3 messages p4 e p' :
    project_client self = Some client ->
    run_returned self user_message supplied p thread run p3 ->
    run_status run = Return run_state ->
    py_eq_str run_state "failed" = false ->
    messages_list rt client thread ASCENDING p3 = (Return messages, p4) ->
    format_messages rt messages p4 = (Raise e, p') ->
    raises_at self user_message supplied p e thread.

(** The thread identifier a chat request body asks for: [None] when the
    key is missing. *)
Definition requested_thread (kvs : Dict) : value :=
  default VNone (dict_lookup "thread_id" kvs).

(** The envelope of a failed run (lines 79-83). *)
Definition failed_run_envelope (error thread : value) : Dict :=
  [("success", VBool false);
   ("error", VStr ("Agent run failed: " +:+ py_format rt error));
   ("thread_id", thread)].

(** A chat request body that was read and holds no message: a JSON null,
    or an object without the key. *)
Definition lacks_message (data : value) : Prop :=
  data = VNone \/ exists kvs, data = VDict kvs /\ dict_lookup "message" kvs = None.

(** The thread a recorded platform call is about. *)
Definition call_thread (c : Call) : option value :=
  match c with
  | MessagesCreate thread _ _ => Some thread
  | RunsCreateAndProcess thread _ => Some thread
  | MessagesList thread _ => Some thread
  | GetAgent _ | ThreadsCreate => None
  end.

Definition is_threads_create (c : Call) : bool :=
  match c with
  | ThreadsCreate => true
  | _ => false
  end.

(** A message of the expected shape: a role, its text segments in order
    and, when the platform supplies one, its creation time. *)
Record PlainMessage : Type := {
  plain_role : value;
  plain_segments : list value;
  plain_created_at : option string
}.

Definition as_thread_message (m : PlainMessage) : ThreadMessage :=
  {| msg_text_messages := Return ((fun v => {| text_value := Return v |}) <$> plain_segments m);
     msg_role := Return (plain_role m);
     msg_created_at := Return <$> plain_created_at m |}.

(** The records of a listing, in the spec's words: in the order listed,
    one record {role, content: last text segment, timestamp} for each
    message that has a text segment; the timestamp is the creation time,
    or the clock's reading when the message has none. *)
Fixpoint records (ms : list PlainMessage) (p : P) : list value * P :=
  match ms with
  | [] => ([], p)
  | m :: ms' =>
      match last (plain_segments m) with
      | None => records ms' p
      | Some content =>
          let '(timestamp, p1) :=
            match plain_created_at m with
            | Some t => (t, p)
            | None => now_isoformat rt p
            end in
          let '(rs, p2) := records ms' p1 in
          (VDict [("role", plain_role m); ("content", content);
                  ("timestamp", VStr timestamp)] :: rs, p2)
      end
  end.

(** The message needs no clock: it has no text, or it has a creation
    time. *)
Definition stamped (m : ThreadMessage) : bool :=
  match msg_text_messages m, msg_created_at m with
  | Return (_ :: _), None => false
  | _, _ => true
  end.

End Scenarios.

(** ** A test double

    A runtime whose answers are scripted; its state counts the readings of
    the clock. *)

Module Double.

Record Script : Type := {
  environ : gmap string string;
  credential : outcome unit;
  client : outcome unit;
  agent : outcome Agent;
  created : outcome AgentThread;
  posted : outcome unit;
  ran : outcome ThreadRun;
  listed : outcome ItemPaged
}.

Definition digit (n : nat) : string :=
  String (ascii_of_nat (48 + n `mod` 10)) EmptyString.

Definition clock (n : nat) : string * nat :=
  ("2025-01-01T00:00:0" +:+ digit n, S n).

Definition render (v : value) : string :=
  match v with
  | VNone => "None"
  | VBool true => "True"
  | VBool false => "False"
  | VInt _ => "<int>"
  | VStr s => s
  | VList _ => "<list>"
  | VDict _ => "<dict>"
  end.

(** What the SDK raises when it is handed no endpoint, and no agent
    identifier. *)
Definition endpoint_refused : exn :=
  Exception "ValueError" "Parameter 'endpoint' must not be None.".
Definition agent_id_refused : exn :=
  Exception "ValueError" "No value for given attribute".

(** Like the SDK, the double refuses [None] as endpoint and as agent
    identifier; every other answer is the script's. *)
Definition runtime (s : Script) : Runtime nat unit unit :=
  {| os_environ := environ s;
     now_isoformat := clock;
     py_format := render;
     DefaultAzureCredential := fun n => (credential s, n);
     AIProjectClient := fun _ endpoint n =>
       match endpoint with
       | VNone => (Raise endpoint_refused, n)
       | _ => (client s, n)
       end;
     get_agent := fun _ agent_id n =>
       match agent_id with
       | VNone => (Raise agent_id_refused, n)
       | _ => (agent s, n)
       end;
     threads_create := fun _ n => (created s, n);
     messages_create := fun _ _ _ _ n => (posted s, n);
     runs_create_and_process := fun _ _ _ n => (ran s, n);
     messages_list := fun _ _ _ n => (listed s, n) |}.

Definition world0 : World nat := Build_World 0%nat [] [].

Definition service : InvoiceAgentService unit :=
  Build_InvoiceAgentService (Some tt) (VStr "asst_1").

Definition text (s : string) : MessageTextContent := {| text_value := Return (VStr s) |}.

Definition user_hello : ThreadMessage :=
  {| msg_text_messages := Return [text "Hello"];
     msg_role := Return (VStr "user");
     msg_created_at := Some (Return "2024-12-31T23:59:58") |}.

Definition agent_reply : ThreadMessage :=
  {| msg_text_messages := Return [text "draft"; text "Hi, how can I help?"];
     msg_role := Return (VStr "assistant");
     msg_created_at := Some (Return "2024-12-31T23:59:59") |}.

(** A message without text, for instance one that holds only an image. *)
Definition image_only : ThreadMessage :=
  {| msg_text_messages := Return [];
     msg_role := Return (VStr "assistant");
     msg_created_at := Some (Return "2024-12-31T23:59:59") |}.

Definition completed : ThreadRun :=
  {| run_status := Return (VStr "completed"); run_last_error := Return VNone |}.

Definition failed : ThreadRun :=
  {| run_status := Return (VStr "failed");
     run_last_error := Return (VStr "rate_limit_exceeded") |}.

Definition unreachable : exn := Exception "ServiceRequestError" "connection refused".

(** Everything answers; the thread holds a user message and a reply. *)
Definition healthy : Script :=
  {| environ := {[ "AZURE_AI_PROJECT_ENDPOINT" := "https://example.test/api/projects/p";
                   "AZURE_AI_AGENT_ID" := "asst_1" ]};
     credential := Return tt;
     client := Return tt;
     agent := Return {| agent_name := Some (VStr "invoice-agent") |};
     created := Return {| thread_obj_id := Return (VStr "thread_new") |};
     posted := Return tt;
     ran := Return completed;
     listed := Return {| paged_items := [user_hello; agent_reply]; paged_fault := None |} |}.

Definition with_environ (env : gmap string string) (s : Script) : Script :=
  {| environ := env; credential := credential s; client := client s; agent := agent s;
     created := created s; posted := posted s; ran := ran s; listed := listed s |}.

Definition with_credential (r : outcome unit) (s : Script) : Script :=
  {| environ := environ s; credential := r; client := client s; agent := agent s;
     created := created s; posted := posted s; ran := ran s; listed := listed s |}.

Definition with_client (r : outcome unit) (s : Script) : Script :=
  {| environ := environ s; credential := credential s; client := r; agent := agent s;
     created := created s; posted := posted s; ran := ran s; listed := listed s |}.

Definition with_created (r : outcome AgentThread) (s : Script) : Script :=
  {| environ := environ s; credential := credential s; client := client s; agent := agent s;
     created := r; posted := posted s; ran := ran s; listed := listed s |}.

Definition with_ran (r : outcome ThreadRun) (s : Script) : Script :=
  {| environ := environ s; credential := credential s; client := client s; agent := agent s;
     created := created s; posted := posted s; ran := r; listed := listed s |}.

Definition with_listed (r : outcome ItemPaged) (s : Script) : Script :=
  {| environ := environ s; credential := credential s; client := client s; agent := agent s;
     created := created s; posted := posted s; ran := ran s; listed := r |}.

Definition json_request (kvs : Dict) : Request := {| get_json := Return (VDict kvs) |}.

(** The scripts of the scenarios used below. *)
Definition startup_fails : Script := with_credential (Raise unreachable) healthy.
Definition no_environ : Script := with_environ ∅ healthy.

Definition refusing_sdk : Script := with_client (Raise endpoint_refused) no_environ.

(** The endpoint is configured, the agent identifier is not. *)
Definition no_agent_id : Script :=
  with_environ {[ "AZURE_AI_PROJECT_ENDPOINT" := "https://example.test/api/projects/p" ]}
    healthy.

Definition creation_fails : Script := with_created (Raise unreachable) healthy.
Definition run_fails : Script := with_ran (Return failed) healthy.
Definition listing_fails : Script := with_listed (Raise unreachable) healthy.

Definition with_image : Script :=
  with_listed
    (Return {| paged_items := [user_hello; image_only; agent_reply]; paged_fault := None |})
    healthy.

Definition plain_listing : list PlainMessage :=
  [ {| plain_role := VStr "user"; plain_segments := [VStr "Hello"];
       plain_created_at := Some "2024-12-31T23:59:58" |};
    {| plain_role := VStr "assistant"; plain_segments := [];
       plain_created_at := Some "2024-12-31T23:59:59" |};
    {| plain_role := VStr "assistant";
       plain_segments := [VStr "draft"; VStr "Hi, how can I help?"];
       plain_created_at := None |} ].

Definition with_plain_listing : Script :=
  with_listed
    (Return {| paged_items := as_thread_message <$> plain_listing; paged_fault := None |})
    healthy.

(** The listing breaks off after its three messages. *)
Definition with_broken_listing : Script :=
  with_listed
    (Return {| paged_items := as_thread_message <$> plain_listing;
               paged_fault := Some unreachable |})
    healthy.

End Double.

(** ** The shape of the responses *)

(** The envelope of a chat call that went through (lines 101-106). *)
Definition success_envelope (d : Dict) : Prop :=
  exists thread conversation run_state,
    d = [("success", VBool true); ("thread_id", thread);
         ("conversation", VList conversation); ("run_status", run_state)].

(** The envelope of a chat call that did not (lines 79-83 and 111-115). *)
Definition failure_envelope (d : Dict) : Prop :=
  exists text thread,
    d = [("success", VBool false); ("error", VStr text); ("thread_id", thread)].

(** The error body a route builds itself. *)
Definition route_error (text : string) : Dict :=
  [("success", VBool false); ("error", VStr text)].

(** One record of a conversation (lines 95-99 and 210-214). *)
Definition is_record (v : value) : Prop :=
  exists role content timestamp,
    v = VDict [("role", role); ("content", content); ("timestamp", VStr timestamp)].

(** The platform calls of one chat call, when every step goes through:
    a thread creation when the thread id passed is falsy, then the post of
    the user message, the run and the listing, all on [thread]. *)
Definition chat_protocol (agent user_message supplied thread : value) : list Call :=
  (if truthy supplied then [] else [ThreadsCreate]) ++
  [MessagesCreate thread "user" user_message;
   RunsCreateAndProcess thread agent;
   MessagesList thread ASCENDING].

Definition is_messages_list (c : Call) : bool :=
  match c with
  | MessagesList _ _ => true
  | _ => false
  end.

(** One record of a conversation, whatever the order of its keys: a dict
    with exactly the keys role, content and timestamp, the timestamp a
    string. *)
Definition has_record_fields (v : value) : Prop :=
  exists kvs role content timestamp,
    v = VDict kvs /\
    kvs ≡ₚ [("role", role); ("content", content); ("timestamp", VStr timestamp)].

(** A message as the SDK delivers it: it has the attribute
    [created_at]. *)
Definition has_created_at (m : ThreadMessage) : Prop := is_Some (msg_created_at m).

(** What the Azure SDK does with a missing value: the client constructor
    raises on an endpoint that is [None], and the agent lookup on an agent
    identifier that is [None]. *)
Definition refuses_none {P Cred Client : Type} (rt : Runtime P Cred Client) : Prop :=
  (forall credential p, exists e p', AIProjectClient rt credential VNone p = (Raise e, p')) /\
  (forall client p, exists e p', get_agent rt client VNone p = (Raise e, p')).

(** ** The test client ([test_api.py]) *)

Definition UnboundLocalError (msg : string) : exn := Exception "UnboundLocalError" msg.

Fixpoint char_in (c : ascii) (chars : string) : bool :=
  match chars with
  | EmptyString => false
  | String c' chars' => Ascii.eqb c c' || char_in c chars'
  end.

(** [s.rstrip(chars)]: [s] without its longest tail made of characters of
    [chars]. *)
Fixpoint py_rstrip (chars s : string) : string :=
  match s with
  | EmptyString => EmptyString
  | String c s' =>
      match py_rstrip chars s' with
      | EmptyString => if char_in c chars then EmptyString else String c EmptyString
      | String _ _ as rest => String c rest
      end
  end.

(** [d[k] = v] on the association list of a dict: an existing key keeps
    its place, a new one goes last. *)
Fixpoint dict_set (k : string) (v : value) (d : Dict) : Dict :=
  match d with
  | [] => [(k, v)]
  | (k', v') :: d' =>
      if String.eqb k k' then (k, v) :: d' else (k', v') :: dict_set k v d'
  end.

(** The characters of a string, one string each. *)
Fixpoint chars_of (s : string) : list value :=
  match s with
  | EmptyString => []
  | String c s' => VStr (String c EmptyString) :: chars_of s'
  end.

(** [v[-1]] *)
Definition py_index_last (v : value) : outcome value :=
  match v with
  | VList xs =>
      match last xs with
      | Some x => Return x
      | None => Raise (IndexError "list index out of range")
      end
  | VStr s =>
      match last (chars_of s) with
      | Some x => Return x
      | None => Raise (IndexError "string index out of range")
      end
  | VDict _ => Raise (KeyError "-1")
  | _ => Raise (TypeError ("'" +:+ type_name v +:+ "' object is not subscriptable"))
  end.

(** What [for item in v] walks over. *)
Definition py_iter (v : value) : outcome (list value) :=
  match v with
  | VList xs => Return xs
  | VDict kvs => Return ((fun kv => VStr kv.1) <$> kvs)
  | VStr s => Return (chars_of s)
  | _ => Raise (TypeError ("'" +:+ type_name v +:+ "' object is not iterable"))
  end.

(** What [session.get] and [session.post] return, as far as the client
    reads it: the evaluation of [response.json()]. *)
Record HttpResponse : Type := { response_json : outcome value }.

(** What the test client does not define itself: the HTTP session over a
    network in state [T], [json.dumps(v, indent=2)], [json.loads] and
    [str]. *)
Record Requests (T : Type) : Type := {
  session_get : string -> T -> outcome HttpResponse * T;
  session_post : string -> option (list (string * string)) -> option value -> T ->
                 outcome HttpResponse * T;
  json_dumps : value -> string;
  json_loads : value -> outcome value;
  py_str : value -> string
}.
Arguments session_get {T} _ _ _.
Arguments session_post {T} _ _ _ _ _.
Arguments json_dumps {T} _ _.
Arguments json_loads {T} _ _.
Arguments py_str {T} _ _.

(** What a test function runs in: the network and what was printed. *)
Record Console (T : Type) : Type := { net : T; stdout : list string }.
Arguments net {T} _.
Arguments stdout {T} _.
Arguments Build_Console {T} _ _.

Module Client.

(** The instance attributes of [InvoiceAgentClient] (the session lives in
    the network state). *)
Record InvoiceAgentClient : Type := { base_url : string }.

(** [InvoiceAgentClient.__init__] (lines 10-12) *)
Definition init (base_url : string) : InvoiceAgentClient :=
  {| base_url := py_rstrip "/" base_url |}.

(** The payload of [chat] (lines 33-35). *)
Definition chat_payload (message thread_id : value) : Dict :=
  let payload := [("message", message)] in
  if truthy thread_id then dict_set "thread_id" thread_id payload else payload.

Section Methods.
Context {T : Type} (rq : Requests T).

Definition error_dict (e : exn) : value := VDict [("error", VStr (exn_str e))].

(** [health_check] (lines 14-20) *)
Definition health_check (self : InvoiceAgentClient) : M T value :=
  try_except
    (response ← session_get rq (base_url self +:+ "/");
     eval (response_json response))
    (fun e => mret (error_dict e)).

(** [create_thread] (lines 22-28) *)
Definition create_thread (self : InvoiceAgentClient) : M T value :=
  try_except
    (response ← session_post rq (base_url self +:+ "/api/invoice/new-thread") None None;
     eval (response_json response))
    (fun e => mret (error_dict e)).

(** [chat] (lines 30-44) *)
Definition chat (self : InvoiceAgentClient) (message thread_id : value) : M T value :=
  try_except
    (let payload := chat_payload message thread_id in
     response ← session_post rq (base_url self +:+ "/api/invoice/chat")
                  (Some [("Content-Type", "application/json")]) (Some (VDict payload));
     eval (response_json response))
    (fun e => mret (error_dict e)).

(** [get_messages] (lines 46-52) *)
Definition get_messages (self : InvoiceAgentClient) (thread_id : value) : M T value :=
  try_except
    (response ← session_get rq (base_url self +:+ "/api/invoice/thread/" +:+
                                 py_str rq thread_id +:+ "/messages");
     eval (response_json response))
    (fun e => mret (error_dict e)).

(** A client method called from a test function. *)
Definition on_net {A : Type} (m : M T A) : M (Console T) A :=
  fun c => let '(r, t') := m (net c) in (r, Build_Console t' (stdout c)).

Definition print (line : string) : M (Console T) unit :=
  fun c => (Return tt, Build_Console (net c) (stdout c ++ [line])).

Fixpoint print_each (items : list value) : M (Console T) unit :=
  match items with
  | [] => mret tt
  | item :: items' => print (py_str rq item);; print_each items'
  end.

Definition newline : string := String (ascii_of_nat 10) EmptyString.

(** Lines 83-86 of [test_local], and again lines 90-93: print the items of
    the last message.  [messages_result] is [None] while the local variable
    is not bound. *)
Definition print_last_message (messages_result : option value) : M (Console T) unit :=
  messages_result ← match messages_result with
                    | Some v => mret v
                    | None =>
                        throw (UnboundLocalError
                          "cannot access local variable 'messages_result' where it is not associated with a value")
                    end;
  messages ← eval (py_get messages_result "messages");
  last_message ← eval (py_index_last messages);
  msgs ← eval (py_get last_message "content");
  msgs_json ← eval (json_loads rq msgs);
  items ← eval (py_iter msgs_json);
  print_each items.

(** The items that lines 83-86 walk over: those of the decoded content of
    the last of the 'messages' of [messages_result]. *)
Definition last_message_items (messages_result : value) : outcome (list value) :=
  match py_get messages_result "messages" with
  | Return messages =>
      match py_index_last messages with
      | Return last_message =>
          match py_get last_message "content" with
          | Return msgs =>
              match json_loads rq msgs with
              | Return msgs_json => py_iter msgs_json
              | Raise e => Raise e
              end
          | Raise e => Raise e
          end
      | Raise e => Raise e
      end
  | Raise e => Raise e
  end.

(** [test_local] (lines 54-93) *)
Definition test_local : M (Console T) unit :=
  let client := init "http://localhost:8000" in
  print "Testing Invoice Agent API locally...";;
  print (newline +:+ "Health Check:");;
  health ← on_net (health_check client);
  print (json_dumps rq health);;
  print (newline +:+ "Creating new thread:");;
  thread_result ← on_net (create_thread client);
  print (json_dumps rq thread_result);;
  success ← eval (py_get thread_result "success");
  messages_result ←
    (if truthy success then
       thread_id ← eval (py_getitem thread_result "thread_id");
       print (newline +:+ "Sending message:");;
       chat_result ← on_net (chat client (VStr "") thread_id);
       print (newline +:+ "Results:");;
       messages_result ← on_net (get_messages client thread_id);
       print_last_message (Some messages_result);;
       mret (Some messages_result)
     else mret None);
  print_last_message messages_result.

(** [test_azure] (lines 95-109) *)
Definition test_azure (app_url : string) : M (Console T) unit :=
  let client := init app_url in
  print ("Testing Invoice Agent API on Azure: " +:+ app_url);;
  print (newline +:+ "1. Health Check:");;
  health ← on_net (health_check client);
  print (json_dumps rq health);;
  print (newline +:+ "2. Sending message (auto-create thread):");;
  chat_result ← on_net (chat client (VStr "Hi Invoice Data Extraction Agent") VNone);
  print (json_dumps rq chat_result).

End Methods.

(** A stand-in for [json.loads]: it knows one document. *)
Definition loads (v : value) : outcome value :=
  match v with
  | VStr s =>
      if String.eqb s "[1, 2]" then Return (VList [VInt 1; VInt 2])
      else Raise (Exception "JSONDecodeError" "Expecting value: line 1 column 1 (char 0)")
  | _ => Raise (TypeError "the JSON object must be str, bytes or bytearray")
  end.

(** A network that gives every request the same answer and counts the
    requests. *)
Definition answering (answer : outcome HttpResponse) : Requests nat :=
  {| session_get := fun _ n => (answer, S n);
     session_post := fun _ _ _ n => (answer, S n);
     json_dumps := Double.render;
     json_loads := loads;
     py_str := Double.render |}.

Definition unavailable : HttpResponse :=
  {| response_json :=
       Return (VDict [("success", VBool false);
                      ("error", VStr "Invoice service not available")]) |}.

(** An answer that serves every request of [test_local]. *)
Definition obliging : HttpResponse :=
  {| response_json :=
       Return (VDict [("success", VBool true); ("thread_id", VStr "t1");
                      ("messages", VList [VDict [("role", VStr "assistant");
                                                 ("content", VStr "[1, 2]")]])]) |}.

Definition console0 : Console nat := Build_Console 0%nat [].

End Client.

(** ** Properties *)

Ltac unfold_monad :=
  unfold with_locals, try_except, lift, get_local, set_local, eval, throw,
    platform_call, external, logger, agents, mbind, M_bind, mret, M_ret.

(** One step of symbolic execution: use what is known about the next
    answer of a collaborator, or split on it (innermost question first). *)
Ltac use_answer :=
  match goal with
  | H : ?x = _ |- context [?x] =>
      lazymatch x with
      | _ _ => rewrite H
      end
  end.

Ltac split_answer :=
  match goal with
  | |- context [match ?x with _ => _ end] =>
      lazymatch x with
      | context [match _ with _ => _ end] => fail
      | _ => destruct x eqn:?
      end
  end.

Ltac execute := unfold_monad; simpl; repeat (use_answer; simpl).

(** Unfold what a scenario says about the platform. *)
Ltac open_scenario :=
  repeat match goal with
  | H : run_returned _ _ _ _ _ _ _ _ |- _ => destruct H as (? & ? & ? & ? & ? & ? & ?)
  | H : uses_thread _ _ _ _ _ _ |- _ => destruct H
  end;
  simplify_eq.

Section Properties.
Context {P Cred Client : Type} (rt : Runtime P Cred Client).

Abbreviation World := (World P).
Abbreviation Service := (InvoiceAgentService Client).

(** *** Startup *)

(** Whenever the constructor raises, the module-level service is
    [None]. *)
Lemma invoice_service_none_iff (w : World) :
  (invoice_service rt w).1 = None <->
  exists e w', InvoiceAgentService_init rt w = (Raise e, w').
Proof.
  unfold invoice_service.
  destruct (InvoiceAgentService_init rt w) as [[self|e] w'] eqn:Hinit; simpl.
  - split; [discriminate | intros (e & w'' & H); discriminate].
  - split; eauto.
Qed.

(** A service that came out of startup holds a client. *)
Lemma invoice_service_has_client (w w' : World) (self : Service) :
  invoice_service rt w = (Some self, w') ->
  exists client, project_client self = Some client.
Proof.
  unfold invoice_service, InvoiceAgentService_init, setup_client.
  unfold_monad; simpl.
  destruct (DefaultAzureCredential rt (platform w)) as [[cred|e] p1]; simpl;
    [| discriminate].
  destruct (AIProjectClient rt cred _ p1) as [[client|e] p2]; simpl;
    [| discriminate].
  destruct (get_agent rt client _ p2) as [[agent|e] p3]; simpl;
    [| discriminate].
  intros [= <- _]. simpl. eauto.
Qed.

(** C5: when initialization failed, the chat, new-thread and messages
    routes answer 503 with success=false and leave the world as it was (no
    platform call), and the health check answers 200 with
    agent_available=false, again without a platform call. *)
Theorem uninitialized_gateway_answers_503 (w0 : World) :
  (exists e w1, InvoiceAgentService_init rt w0 = (Raise e, w1)) ->
  forall (request : Request) (thread_id : value) (w : World),
    let unavailable :=
      {| status := 503;
         body := [("success", VBool false);
                  ("error", VStr "Invoice service not available")] |} in
    let service := (invoice_service rt w0).1 in
    chat_with_agent rt service request w = (Return unavailable, w) /\
    create_new_thread rt service w = (Return unavailable, w) /\
    get_thread_messages rt service thread_id w = (Return unavailable, w) /\
    exists health w',
      health_check rt service w = (Return health, w') /\
      status health = 200 /\
      dict_lookup "agent_available" (body health) = Some (VBool false) /\
      calls w' = calls w.
Proof.
  intros Hfail request thread_id w.
  apply invoice_service_none_iff in Hfail. simpl. rewrite Hfail.
  repeat split.
  unfold health_check. unfold_monad; simpl.
  destruct (now_isoformat rt (platform w)) as [t p'] eqn:Hnow.
  unfold datetime_now_isoformat. rewrite Hnow. simpl.
  eexists _, _. repeat split.
Qed.

(** *** Input validation *)

(** A chat request whose body is read as null ([get_json] gives [None])
    or as an object without the key 'message' is answered with exactly 400,
    success=false and an error text, and the world is left as it was: no
    platform call is made. *)
Theorem chat_missing_message_400 (service : Service) (request : Request)
    (data : value) (w : World) :
  get_json request = Return data ->
  lacks_message data ->
  chat_with_agent rt (Some service) request w =
    (Return {| status := 400;
               body := [("success", VBool false);
                        ("error", VStr "Missing 'message' in request body")] |}, w).
Proof.
  intros Hjson [-> | (kvs & -> & Hmissing)];
    unfold chat_with_agent; execute; [reflexivity |].
  destruct kvs as [| kv kvs]; reflexivity.
Qed.

(** A body that [get_json] cannot deliver is answered by the route's own
    [except] clause: 500, and again no platform call. *)
Lemma chat_unreadable_body_500 (service : Service) (request : Request) (e : exn)
    (w : World) :
  get_json request = Raise e ->
  exists w',
    chat_with_agent rt (Some service) request w =
      (Return {| status := 500;
                 body := [("success", VBool false);
                          ("error", VStr ("Internal server error: " +:+ exn_str e))] |}, w') /\
    calls w' = calls w.
Proof.
  intros Hjson. unfold chat_with_agent. execute. eexists. split; reflexivity.
Qed.

(** *** The chat call *)

(** The call always hands back an envelope with a success flag and the
    thread identifier known when it is built. *)
Lemma envelope_of_chat (self : Service) (user_message supplied : value) (w : World) :
  exists envelope w',
    process_invoice_message rt self user_message supplied w = (Return envelope, w') /\
    dict_lookup "thread_id" envelope = Some (known_thread_id rt self supplied (platform w)) /\
    exists b, dict_lookup "success" envelope = Some (VBool b).
Proof.
  unfold process_invoice_message, known_thread_id. unfold_monad; simpl.
  destruct (truthy supplied) eqn:Htruthy; simpl.
  all: repeat (split_answer; simpl).
  all: eexists _, _; split; [reflexivity |]; simpl; eauto.
Qed.

(** The chat route hands the envelope on as the body, with 200 when its
    success flag is set and 500 otherwise. *)
Lemma chat_relays_envelope (service : Service) (request : Request) (kvs : Dict)
    (user_message : value) (w w' : World) (envelope : Dict) (b : bool) :
  get_json request = Return (VDict kvs) ->
  dict_lookup "message" kvs = Some user_message ->
  process_invoice_message rt service user_message (requested_thread kvs) w
    = (Return envelope, w') ->
  dict_lookup "success" envelope = Some (VBool b) ->
  chat_with_agent rt (Some service) request w =
    (Return {| status := if b then 200 else 500; body := envelope |}, w').
Proof.
  intros Hjson Hmessage Hcall Hsuccess.
  unfold chat_with_agent, requested_thread in *. execute.
  destruct kvs as [| kv kvs]; [discriminate |]. simpl.
  unfold bool_decide, decide_rel; simpl. execute.
  destruct b; reflexivity.
Qed.

Lemma failed_run_is_reported (self : Service) (user_message supplied : value)
    (w : World) (thread : value) (run : ThreadRun) (p' : P) (error : value) :
  run_returned rt self user_message supplied (platform w) thread run p' ->
  run_status run = Return (VStr "failed") ->
  run_last_error run = Return error ->
  exists w',
    process_invoice_message rt self user_message supplied w
      = (Return (failed_run_envelope rt error thread), w') /\
    platform w' = p'.
Proof.
  intros Hrun Hstatus Herror. open_scenario.
  all: unfold process_invoice_message; execute; eauto.
Qed.

(** C2: when the run of a chat call comes back with status "failed",
    [process_invoice_message] returns an envelope with success=false, the
    thread id and the platform's error detail, and the chat route answers
    500 with that envelope as the body, thread id included. *)
Theorem failed_run_answers_500 (service : Service) (request : Request) (kvs : Dict)
    (user_message : value) (w : World) (thread : value) (run : ThreadRun) (p' : P)
    (error : value) :
  get_json request = Return (VDict kvs) ->
  dict_lookup "message" kvs = Some user_message ->
  run_returned rt service user_message (requested_thread kvs) (platform w) thread run p' ->
  run_status run = Return (VStr "failed") ->
  run_last_error run = Return error ->
  let envelope :=
    [("success", VBool false);
     ("error", VStr ("Agent run failed: " +:+ py_format rt error));
     ("thread_id", thread)] in
  exists w',
    process_invoice_message rt service user_message (requested_thread kvs) w
      = (Return envelope, w') /\
    chat_with_agent rt (Some service) request w
      = (Return {| status := 500; body := envelope |}, w') /\
    dict_lookup "thread_id" envelope = Some thread.
Proof.
  intros Hjson Hmessage Hrun Hstatus Herror envelope.
  destruct (failed_run_is_reported _ _ _ _ _ _ _ _ Hrun Hstatus Herror) as (w' & Hcall & _).
  exists w'. split; [exact Hcall |]. split; [| reflexivity].
  exact (chat_relays_envelope _ _ _ _ _ _ _ false Hjson Hmessage Hcall eq_refl).
Qed.

(** C3: [process_invoice_message] returns an envelope on every input and
    for every behaviour of the platform; and when thread creation, message
    posting, run execution, message listing or message reshaping raises
    [e], that envelope has success=false, the description of [e] and the
    thread identifier known at that point. *)
Theorem process_invoice_message_never_raises (self : Service)
    (user_message supplied : value) (w : World) :
  (exists envelope w',
     process_invoice_message rt self user_message supplied w = (Return envelope, w')) /\
  (forall e thread,
     raises_at rt self user_message supplied (platform w) e thread ->
     exists w',
       process_invoice_message rt self user_message supplied w =
         (Return [("success", VBool false);
                  ("error", VStr ("Error processing message: " +:+ exn_str e));
                  ("thread_id", thread)], w')).
Proof.
  split.
  - destruct (envelope_of_chat self user_message supplied w) as (envelope & w' & H & _).
    eauto.
  - intros e thread Hraise.
    destruct Hraise; open_scenario.
    all: unfold process_invoice_message; execute; eauto.
Qed.

(** *** Which thread a chat call uses *)

Lemma chat_call_creates_thread (self : Service) (client : Client)
    (user_message supplied : value) (w : World) thread new_id p' :
  project_client self = Some client ->
  truthy supplied = false ->
  threads_create rt client (platform w) = (Return thread, p') ->
  thread_obj_id thread = Return new_id ->
  exists envelope w' later,
    process_invoice_message rt self user_message supplied w = (Return envelope, w') /\
    calls w' = (calls w ++
      ThreadsCreate :: MessagesCreate new_id "user" user_message :: later)%list /\
    Forall (fun c => call_thread c = Some new_id) later /\
    dict_lookup "thread_id" envelope = Some new_id.
Proof.
  intros Hclient Hfalsy Hcreate Hid.
  unfold process_invoice_message. execute.
  repeat (split_answer; simpl).
  all: eexists _, _, _; split; [reflexivity |]; simpl.
  all: rewrite <- ?app_assoc; simpl.
  all: split; [reflexivity |]; split; [| reflexivity].
  all: repeat constructor.
Qed.

Lemma chat_call_keeps_thread (self : Service) (client : Client)
    (user_message supplied : value) (w : World) :
  project_client self = Some client ->
  truthy supplied = true ->
  exists envelope w' later,
    process_invoice_message rt self user_message supplied w = (Return envelope, w') /\
    calls w' = (calls w ++ MessagesCreate supplied "user" user_message :: later)%list /\
    Forall (fun c => call_thread c = Some supplied) later /\
    dict_lookup "thread_id" envelope = Some supplied.
Proof.
  intros Hclient Htruthy.
  unfold process_invoice_message. execute.
  repeat (split_answer; simpl).
  all: eexists _, _, _; split; [reflexivity |]; simpl.
  all: rewrite <- ?app_assoc; simpl.
  all: split; [reflexivity |]; split; [| reflexivity].
  all: repeat constructor.
Qed.

(** C6, amended: when the thread id passed to the call is absent or
    falsy, the call first creates a thread, and when the platform delivers
    one, posts the user message to it, addresses every later platform call
    to it and returns its id in the envelope; when the thread id passed is
    truthy, the call creates no thread: it posts the user message to the
    given thread, addresses every later platform call to it and returns its
    id unchanged in the envelope. *)
Theorem thread_of_chat_call (self : Service) (client : Client)
    (user_message supplied : value) (w : World) :
  project_client self = Some client ->
  (truthy supplied = false ->
   forall thread new_id p',
     threads_create rt client (platform w) = (Return thread, p') ->
     thread_obj_id thread = Return new_id ->
     exists envelope w' later,
       process_invoice_message rt self user_message supplied w = (Return envelope, w') /\
       calls w' = (calls w ++
         ThreadsCreate :: MessagesCreate new_id "user" user_message :: later)%list /\
       Forall (fun c => call_thread c = Some new_id) later /\
       dict_lookup "thread_id" envelope = Some new_id) /\
  (truthy supplied = true ->
   exists envelope w' later,
     process_invoice_message rt self user_message supplied w = (Return envelope, w') /\
     calls w' = (calls w ++ MessagesCreate supplied "user" user_message :: later)%list /\
     Forall (fun c => call_thread c = Some supplied) later /\
     dict_lookup "thread_id" envelope = Some supplied).
Proof.
  intros Hclient. split.
  - intros Hfalsy thread new_id p' Hcreate Hid.
    exact (chat_call_creates_thread _ _ _ _ _ _ _ _ Hclient Hfalsy Hcreate Hid).
  - intros Htruthy.
    exact (chat_call_keeps_thread _ _ _ _ _ Hclient Htruthy).
Qed.

(** With a truthy thread id, none of the calls made is a thread
    creation. *)
Lemma no_thread_created (self : Service) (client : Client)
    (user_message supplied : value) (w : World) :
  project_client self = Some client ->
  truthy supplied = true ->
  exists made,
    calls (process_invoice_message rt self user_message supplied w).2
      = (calls w ++ made)%list /\
    forallb (fun c => negb (is_threads_create c)) made = true.
Proof.
  intros Hclient Htruthy.
  unfold process_invoice_message. execute.
  repeat (split_answer; simpl).
  all: rewrite <- ?app_assoc; simpl.
  all: eexists; split; [reflexivity |]; reflexivity.
Qed.

(** C10: a chat request whose body carries a falsy 'thread_id' (the empty
    string, for one) is handled as if it carried none: the first platform
    call creates a thread, and the response carries the identifier of the
    thread created, not the one supplied. *)
Theorem falsy_thread_id_is_treated_as_absent (service : Service) (client : Client)
    (request : Request) (kvs : Dict) (user_message supplied : value) (w : World)
    thread new_id p' :
  project_client service = Some client ->
  get_json request = Return (VDict kvs) ->
  dict_lookup "message" kvs = Some user_message ->
  dict_lookup "thread_id" kvs = Some supplied ->
  truthy supplied = false ->
  threads_create rt client (platform w) = (Return thread, p') ->
  thread_obj_id thread = Return new_id ->
  exists response w' later,
    chat_with_agent rt (Some service) request w = (Return response, w') /\
    calls w' = (calls w ++ ThreadsCreate :: later)%list /\
    dict_lookup "thread_id" (body response) = Some new_id.
Proof.
  intros Hclient Hjson Hmessage Hthread Hfalsy Hcreate Hid.
  assert (Hreq : requested_thread kvs = supplied)
    by (unfold requested_thread; rewrite Hthread; reflexivity).
  destruct (chat_call_creates_thread service client user_message supplied w
              thread new_id p' Hclient Hfalsy Hcreate Hid)
    as (envelope & w' & later & Hcall & Hcalls & _ & Hcarried).
  destruct (envelope_of_chat service user_message supplied w)
    as (envelope' & w'' & Hcall' & _ & b & Hsuccess).
  rewrite Hcall in Hcall'. injection Hcall' as <- <-.
  rewrite <- Hreq in Hcall.
  eexists _, w', _. split; [| split].
  - exact (chat_relays_envelope _ _ _ _ _ _ _ b Hjson Hmessage Hcall Hsuccess).
  - exact Hcalls.
  - exact Hcarried.
Qed.

(** *** Reshaping a listing *)

(** On messages of the expected shape the loop computes the records of
    the listing. *)
Lemma format_loop_records (ms : list PlainMessage) (conversation : list value) (p : P) :
  format_loop rt (as_thread_message <$> ms) None conversation p =
    (Return (conversation ++ (records rt ms p).1)%list, (records rt ms p).2).
Proof.
  revert conversation p.
  induction ms as [| m ms IH]; intros conversation p; simpl.
  - rewrite app_nil_r. reflexivity.
  - unfold_monad; simpl.
    destruct (plain_segments m) as [| v vs] eqn:Hsegments; simpl.
    + apply IH.
    + unfold py_last.
      replace (last (_ :: list_fmap _ _ _ vs))
        with ((fun v => {| text_value := Return v |}) <$> last (v :: vs))
        by (symmetry;
            exact (fmap_last (fun v => {| text_value := Return v |}) (v :: vs))).
      destruct (last (v :: vs)) as [content |] eqn:Hlast;
        [| apply last_None in Hlast; discriminate].
      simpl.
      destruct (plain_created_at m) as [t |]; simpl.
      * rewrite IH. destruct (records rt ms p) as [rs p2]. simpl.
        rewrite <- app_assoc. reflexivity.
      * unfold datetime_now_isoformat.
        destruct (now_isoformat rt p) as [t p1]. simpl.
        rewrite IH. destruct (records rt ms p1) as [rs p2]. simpl.
        rewrite <- app_assoc. reflexivity.
Qed.

(** When no message needs the clock, what the loop yields does not
    depend on the state it runs in. *)
Lemma format_loop_stamped (items : list ThreadMessage) (fault : option exn)
    (conversation : list value) (p p' : P) :
  forallb stamped items = true ->
  (format_loop rt items fault conversation p).1 =
  (format_loop rt items fault conversation p').1.
Proof.
  revert conversation.
  induction items as [| msg items IH]; intros conversation Hstamped; simpl.
  - destruct fault; reflexivity.
  - simpl in Hstamped. apply andb_prop in Hstamped as [Hmsg Hrest].
    unfold stamped in Hmsg. unfold_monad; simpl.
    destruct (msg_text_messages msg) as [[| t ts] | e]; simpl; auto.
    destruct (msg_role msg); simpl; auto.
    destruct (py_last (t :: ts)) as [last_text | e]; simpl; auto.
    destruct (text_value last_text); simpl; auto.
    destruct (msg_created_at msg) as [[ts' | e] |]; simpl; auto.
    discriminate.
Qed.

(** C8, amended: when the run of a chat call comes back with a status
    other than "failed", the call lists the messages of the thread in
    ascending order, and when the listing arrives and its messages have the
    expected shape, returns success=true with the thread id, the run status
    and, in the order listed, one record {role, content: last text segment,
    timestamp} for each message that has a text segment; a message without
    text segments is left out. *)
Theorem completed_run_returns_conversation (self : Service) (client : Client)
    (user_message supplied : value) (w : World) (thread : value) (run : ThreadRun)
    (p3 : P) (run_state : value) (ms : list PlainMessage) (p4 : P) :
  project_client self = Some client ->
  run_returned rt self user_message supplied (platform w) thread run p3 ->
  run_status run = Return run_state ->
  py_eq_str run_state "failed" = false ->
  messages_list rt client thread ASCENDING p3 =
    (Return {| paged_items := as_thread_message <$> ms; paged_fault := None |}, p4) ->
  exists w' earlier,
    process_invoice_message rt self user_message supplied w =
      (Return [("success", VBool true); ("thread_id", thread);
               ("conversation", VList (records rt ms p4).1);
               ("run_status", run_state)], w') /\
    calls w' = (earlier ++ [MessagesList thread ASCENDING])%list.
Proof.
  intros Hclient Hrun Hstatus Hnot_failed Hlist. open_scenario.
  all: unfold process_invoice_message; execute.
  all: unfold format_messages; simpl; rewrite format_loop_records; simpl.
  all: eexists _, _; split; reflexivity.
Qed.

(** *** The messages route *)

(** Two calls of the messages route for the same thread, to which the
    platform hands the same listing, return the same response when no
    listed message needs the clock. *)
Theorem get_thread_messages_repeatable (service : Service) (client : Client)
    (thread_id : value) (w1 w2 : World) (listing : ItemPaged) :
  project_client service = Some client ->
  (messages_list rt client thread_id ASCENDING (platform w1)).1 = Return listing ->
  (messages_list rt client thread_id ASCENDING (platform w2)).1 = Return listing ->
  forallb stamped (paged_items listing) = true ->
  (get_thread_messages rt (Some service) thread_id w1).1 =
  (get_thread_messages rt (Some service) thread_id w2).1.
Proof.
  intros Hclient Hfirst Hsecond Hstamped.
  unfold get_thread_messages. execute.
  destruct (messages_list rt client thread_id ASCENDING (platform w1)) as [r1 p1].
  destruct (messages_list rt client thread_id ASCENDING (platform w2)) as [r2 p2].
  simpl in Hfirst, Hsecond. subst r1 r2. simpl.
  unfold format_messages.
  pose proof (format_loop_stamped (paged_items listing) (paged_fault listing) [] p1 p2
                Hstamped) as Hsame.
  destruct (format_loop rt (paged_items listing) (paged_fault listing) [] p1) as [c1 q1].
  destruct (format_loop rt (paged_items listing) (paged_fault listing) [] p2) as [c2 q2].
  simpl in Hsame. subst c2.
  destruct c1; reflexivity.
Qed.

(** *** The thread identifier in responses *)

(** C1, amended: every envelope that [process_invoice_message] returns,
    and so every response the chat route builds from one, failure or not,
    carries the thread identifier known at that point (the caller's when
    truthy, else the one created during the call, else what the caller
    passed); the 200 responses of the messages and new-thread routes carry
    the thread identifier too.  The error responses a route builds itself
    carry only success and error: so the messages route when it does not
    answer 200. *)
Theorem gateway_envelope_carries_thread_id (service : Service) :
  (forall user_message supplied (w : World),
     exists envelope w',
       process_invoice_message rt service user_message supplied w
         = (Return envelope, w') /\
       dict_lookup "thread_id" envelope
         = Some (known_thread_id rt service supplied (platform w))) /\
  (forall request kvs user_message (w : World),
     get_json request = Return (VDict kvs) ->
     dict_lookup "message" kvs = Some user_message ->
     exists response w',
       chat_with_agent rt (Some service) request w = (Return response, w') /\
       dict_lookup "thread_id" (body response)
         = Some (known_thread_id rt service (requested_thread kvs) (platform w))) /\
  (forall thread_id (w : World) response w',
     get_thread_messages rt (Some service) thread_id w = (Return response, w') ->
     (status response = 200 ->
      dict_lookup "thread_id" (body response) = Some thread_id) /\
     (status response <> 200 ->
      dict_lookup "thread_id" (body response) = None)) /\
  (forall (w : World) response w',
     create_new_thread rt (Some service) w = (Return response, w') ->
     status response = 200 ->
     exists client thread p' new_id,
       project_client service = Some client /\
       threads_create rt client (platform w) = (Return thread, p') /\
       thread_obj_id thread = Return new_id /\
       dict_lookup "thread_id" (body response) = Some new_id).
Proof.
  split; [| split; [| split]].
  - intros user_message supplied w.
    destruct (envelope_of_chat service user_message supplied w)
      as (envelope & w' & Hcall & Hcarried & _).
    eauto.
  - intros request kvs user_message w Hjson Hmessage.
    destruct (envelope_of_chat service user_message (requested_thread kvs) w)
      as (envelope & w' & Hcall & Hcarried & b & Hsuccess).
    eexists _, w'. split.
    + exact (chat_relays_envelope _ _ _ _ _ _ _ b Hjson Hmessage Hcall Hsuccess).
    + exact Hcarried.
  - intros thread_id w response w'.
    unfold get_thread_messages, format_messages. unfold_monad; simpl.
    repeat (split_answer; simpl).
    all: intros [= <- _]; simpl; split; intros; congruence.
  - intros w response w'.
    unfold create_new_thread, datetime_now_isoformat. unfold_monad; simpl.
    repeat (split_answer; simpl).
    all: intros [= <- _]; simpl; intros; try discriminate.
    eexists _, _, _, _. repeat split; eauto.
Qed.

(** *** Configuration *)

(** [setup_client] hands the two configuration values on as read to the
    client constructor and to the agent lookup.  Initialization fails, the
    failure is logged and the service is left unavailable, when credential
    construction, client construction or the agent lookup raises; when all
    three return, the service is initialized with the agent identifier as
    read. *)
Theorem startup_fails_when_the_sdk_raises (w : World) :
  let endpoint := os_getenv rt "AZURE_AI_PROJECT_ENDPOINT" in
  let agent := os_getenv rt "AZURE_AI_AGENT_ID" in
  let failure e w' :=
    invoice_service rt w = (None, w') /\
    exists earlier,
      logged w' =
        (earlier ++
         [(ERROR, "Failed to setup Azure AI Project client: " +:+ exn_str e);
          (ERROR, "Failed to initialize invoice service: " +:+ exn_str e)])%list in
  (forall e p1,
     DefaultAzureCredential rt (platform w) = (Raise e, p1) ->
     exists w', failure e w') /\
  (forall credential p1 e p2,
     DefaultAzureCredential rt (platform w) = (Return credential, p1) ->
     AIProjectClient rt credential endpoint p1 = (Raise e, p2) ->
     exists w', failure e w') /\
  (forall credential p1 client p2 e p3,
     DefaultAzureCredential rt (platform w) = (Return credential, p1) ->
     AIProjectClient rt credential endpoint p1 = (Return client, p2) ->
     get_agent rt client agent p2 = (Raise e, p3) ->
     exists w', failure e w') /\
  (forall credential p1 client p2 found p3,
     DefaultAzureCredential rt (platform w) = (Return credential, p1) ->
     AIProjectClient rt credential endpoint p1 = (Return client, p2) ->
     get_agent rt client agent p2 = (Return found, p3) ->
     exists w',
       invoice_service rt w =
         (Some {| project_client := Some client; agent_id := agent |}, w')).
Proof.
  simpl. split; [| split; [| split]].
  all: intros.
  all: unfold invoice_service, InvoiceAgentService_init, setup_client; execute.
  all: eexists; try reflexivity.
  all: split; [reflexivity |]; simpl.
  - exists (logged w). rewrite <- app_assoc. reflexivity.
  - exists (logged w ++ [(INFO, "Using Default Azure Credential for authentication")])%list.
    rewrite <- !app_assoc. reflexivity.
  - exists (logged w ++ [(INFO, "Using Default Azure Credential for authentication")])%list.
    rewrite <- !app_assoc. reflexivity.
Qed.

End Properties.

(** ** The properties on the test double *)

Section OnTheDouble.
Import Double.

(** C1, as stated, fails: the messages route knows the thread id (it is
    the path parameter), and when the listing raises its response does not
    carry it. *)
Lemma messages_error_omits_thread_id :
  exists response w',
    get_thread_messages (runtime listing_fails) (Some service) (VStr "t1") world0
      = (Return response, w') /\
    status response = 500 /\
    dict_lookup "thread_id" (body response) <> Some (VStr "t1").
Proof.
  eexists _, _. split; [reflexivity |]. split; [reflexivity |]. discriminate.
Qed.

(** The 400 of the chat route is such a response too: the body names a
    thread, the response does not. *)
Lemma chat_400_omits_thread_id :
  exists response w',
    chat_with_agent (runtime healthy) (Some service)
      (json_request [("thread_id", VStr "t1")]) world0 = (Return response, w') /\
    status response = 400 /\
    dict_lookup "thread_id" (body response) = None.
Proof.
  eexists _, _. repeat split.
Qed.

(** A body that is a number is neither absent nor an object: the
    membership test raises and the route answers 500. *)
Lemma chat_number_body_500 :
  exists response w',
    chat_with_agent (runtime healthy) (Some service) {| get_json := Return (VInt 5) |} world0
      = (Return response, w') /\
    status response = 500 /\
    calls w' = [].
Proof.
  eexists _, _. repeat split.
Qed.

Lemma gateway_envelope_carries_thread_id_witness :
  exists response w',
    chat_with_agent (runtime run_fails) (Some service)
      (json_request [("message", VStr "Hello"); ("thread_id", VStr "t1")]) world0
      = (Return response, w') /\
    dict_lookup "thread_id" (body response) = Some (VStr "t1").
Proof.
  destruct (gateway_envelope_carries_thread_id (runtime run_fails) service)
    as (_ & Hchat & _).
  exact (Hchat (json_request [("message", VStr "Hello"); ("thread_id", VStr "t1")])
           [("message", VStr "Hello"); ("thread_id", VStr "t1")] (VStr "Hello") world0
           eq_refl eq_refl).
Defined.

Lemma failed_run_witness :
  run_returned (runtime run_fails) service (VStr "Hello") (VStr "t1") 0%nat
    (VStr "t1") failed 0%nat /\
  exists w',
    process_invoice_message (runtime run_fails) service (VStr "Hello") (VStr "t1") world0
      = (Return [("success", VBool false);
                 ("error", VStr "Agent run failed: rate_limit_exceeded");
                 ("thread_id", VStr "t1")], w') /\
    chat_with_agent (runtime run_fails) (Some service)
      (json_request [("message", VStr "Hello"); ("thread_id", VStr "t1")]) world0
      = (Return {| status := 500;
                   body := [("success", VBool false);
                            ("error", VStr "Agent run failed: rate_limit_exceeded");
                            ("thread_id", VStr "t1")] |}, w') /\
    dict_lookup "thread_id"
      [("success", VBool false);
       ("error", VStr "Agent run failed: rate_limit_exceeded");
       ("thread_id", VStr "t1")] = Some (VStr "t1").
Proof.
  assert (Hrun : run_returned (runtime run_fails) service (VStr "Hello") (VStr "t1") 0%nat
                   (VStr "t1") failed 0%nat).
  { exists tt, 0%nat, 0%nat. repeat split. apply thread_supplied. reflexivity. }
  split; [exact Hrun |].
  exact (failed_run_answers_500 (runtime run_fails) service
           (json_request [("message", VStr "Hello"); ("thread_id", VStr "t1")])
           [("message", VStr "Hello"); ("thread_id", VStr "t1")] (VStr "Hello") world0
           (VStr "t1") failed 0%nat (VStr "rate_limit_exceeded")
           eq_refl eq_refl Hrun eq_refl eq_refl).
Defined.

Lemma process_invoice_message_never_raises_witness :
  raises_at (runtime creation_fails) service (VStr "Hello") VNone 0%nat unreachable VNone /\
  exists w',
    process_invoice_message (runtime creation_fails) service (VStr "Hello") VNone world0
      = (Return [("success", VBool false);
                 ("error", VStr ("Error processing message: " +:+ exn_str unreachable));
                 ("thread_id", VNone)], w').
Proof.
  assert (Hraise : raises_at (runtime creation_fails) service (VStr "Hello") VNone 0%nat
                     unreachable VNone).
  { apply (raises_thread_creation _ _ _ _ _ tt unreachable 0%nat); reflexivity. }
  split; [exact Hraise |].
  exact (proj2 (process_invoice_message_never_raises (runtime creation_fails) service
                  (VStr "Hello") VNone world0) unreachable VNone Hraise).
Defined.

Lemma chat_missing_message_witness :
  lacks_message (VDict [("thread_id", VStr "t1")]) /\
  chat_with_agent (runtime healthy) (Some service)
    (json_request [("thread_id", VStr "t1")]) world0 =
    (Return {| status := 400;
               body := [("success", VBool false);
                        ("error", VStr "Missing 'message' in request body")] |}, world0).
Proof.
  assert (Hlacks : lacks_message (VDict [("thread_id", VStr "t1")])).
  { right. exists [("thread_id", VStr "t1")]. split; reflexivity. }
  split; [exact Hlacks |].
  exact (chat_missing_message_400 (runtime healthy) service
           (json_request [("thread_id", VStr "t1")]) _ world0 eq_refl Hlacks).
Defined.

Lemma uninitialized_gateway_witness :
  (invoice_service (runtime startup_fails) world0).1 = None /\
  chat_with_agent (runtime startup_fails) (invoice_service (runtime startup_fails) world0).1
    (json_request [("message", VStr "Hello")]) world0
    = (Return {| status := 503;
                 body := [("success", VBool false);
                          ("error", VStr "Invoice service not available")] |}, world0).
Proof.
  assert (Hfails : exists e w1,
             InvoiceAgentService_init (runtime startup_fails) world0 = (Raise e, w1)).
  { eexists _, _. reflexivity. }
  split; [reflexivity |].
  exact (proj1 (uninitialized_gateway_answers_503 (runtime startup_fails) world0 Hfails
                  (json_request [("message", VStr "Hello")]) VNone world0)).
Defined.

(** C6, as stated, fails: an explicit thread id that is the empty string
    is supplied, and yet a thread is created and the envelope carries the
    new id. *)
Lemma explicit_empty_thread_id_creates_a_thread :
  exists envelope w',
    process_invoice_message (runtime healthy) service (VStr "Hello") (VStr "") world0
      = (Return envelope, w') /\
    calls w' = [ThreadsCreate;
                MessagesCreate (VStr "thread_new") "user" (VStr "Hello");
                RunsCreateAndProcess (VStr "thread_new") (VStr "asst_1");
                MessagesList (VStr "thread_new") ASCENDING] /\
    dict_lookup "thread_id" envelope <> Some (VStr "").
Proof.
  eexists _, _. split; [reflexivity |]. split; [reflexivity |]. discriminate.
Qed.

Lemma thread_of_chat_call_witness :
  exists envelope w' later,
    process_invoice_message (runtime healthy) service (VStr "Hello") (VStr "t1") world0
      = (Return envelope, w') /\
    calls w' = (calls world0 ++ MessagesCreate (VStr "t1") "user" (VStr "Hello") :: later)%list /\
    Forall (fun c => call_thread c = Some (VStr "t1")) later /\
    dict_lookup "thread_id" envelope = Some (VStr "t1").
Proof.
  exact (proj2 (thread_of_chat_call (runtime healthy) service tt (VStr "Hello") (VStr "t1")
                  world0 eq_refl) eq_refl).
Defined.

Lemma startup_fails_witness :
  os_getenv (runtime refusing_sdk) "AZURE_AI_PROJECT_ENDPOINT" = VNone /\
  exists w',
    invoice_service (runtime refusing_sdk) world0 = (None, w') /\
    exists earlier,
      logged w' =
        (earlier ++
         [(ERROR, "Failed to setup Azure AI Project client: " +:+ exn_str endpoint_refused);
          (ERROR, "Failed to initialize invoice service: " +:+ exn_str endpoint_refused)])%list.
Proof.
  split; [reflexivity |].
  exact (proj1 (proj2 (startup_fails_when_the_sdk_raises (runtime refusing_sdk) world0))
           tt 0%nat endpoint_refused 0%nat eq_refl eq_refl).
Defined.

(** C8, as stated, fails: three messages are listed, one of them without
    text, and the conversation returned holds two records. *)
Lemma message_without_text_is_left_out :
  listed with_image
    = Return {| paged_items := [user_hello; image_only; agent_reply]; paged_fault := None |} /\
  exists w',
    process_invoice_message (runtime with_image) service (VStr "Hello") (VStr "t1") world0
      = (Return [("success", VBool true); ("thread_id", VStr "t1");
                 ("conversation",
                  VList [VDict [("role", VStr "user"); ("content", VStr "Hello");
                                ("timestamp", VStr "2024-12-31T23:59:58")];
                         VDict [("role", VStr "assistant");
                                ("content", VStr "Hi, how can I help?");
                                ("timestamp", VStr "2024-12-31T23:59:59")]]);
                 ("run_status", VStr "completed")], w').
Proof.
  split; [reflexivity |]. eexists. reflexivity.
Qed.

Lemma completed_run_witness :
  exists w' earlier,
    process_invoice_message (runtime with_plain_listing) service (VStr "Hello") (VStr "t1")
      world0
      = (Return [("success", VBool true); ("thread_id", VStr "t1");
                 ("conversation",
                  VList (records (runtime with_plain_listing) plain_listing 0%nat).1);
                 ("run_status", VStr "completed")], w') /\
    calls w' = (earlier ++ [MessagesList (VStr "t1") ASCENDING])%list.
Proof.
  assert (Hrun : run_returned (runtime with_plain_listing) service (VStr "Hello") (VStr "t1")
                   0%nat (VStr "t1") completed 0%nat).
  { exists tt, 0%nat, 0%nat. repeat split. apply thread_supplied. reflexivity. }
  exact (completed_run_returns_conversation (runtime with_plain_listing) service tt
           (VStr "Hello") (VStr "t1") world0 (VStr "t1") completed 0%nat (VStr "completed")
           plain_listing 0%nat eq_refl Hrun eq_refl eq_refl eq_refl).
Defined.

Lemma get_thread_messages_repeatable_witness :
  (get_thread_messages (runtime healthy) (Some service) (VStr "t1") world0).1 =
  (get_thread_messages (runtime healthy) (Some service) (VStr "t1")
     (get_thread_messages (runtime healthy) (Some service) (VStr "t1") world0).2).1.
Proof.
  exact (get_thread_messages_repeatable (runtime healthy) service tt (VStr "t1") world0
           (get_thread_messages (runtime healthy) (Some service) (VStr "t1") world0).2
           {| paged_items := [user_hello; agent_reply]; paged_fault := None |}
           eq_refl eq_refl eq_refl eq_refl).
Defined.

Lemma falsy_thread_id_witness :
  truthy (VStr "") = false /\
  exists response w' later,
    chat_with_agent (runtime healthy) (Some service)
      (json_request [("message", VStr "Hello"); ("thread_id", VStr "")]) world0
      = (Return response, w') /\
    calls w' = (calls world0 ++ ThreadsCreate :: later)%list /\
    dict_lookup "thread_id" (body response) = Some (VStr "thread_new").
Proof.
  split; [reflexivity |].
  exact (falsy_thread_id_is_treated_as_absent (runtime healthy) service tt
           (json_request [("message", VStr "Hello"); ("thread_id", VStr "")])
           [("message", VStr "Hello"); ("thread_id", VStr "")] (VStr "Hello") (VStr "")
           world0 {| thread_obj_id := Return (VStr "thread_new") |} (VStr "thread_new") 0%nat
           eq_refl eq_refl eq_refl eq_refl eq_refl eq_refl eq_refl).
Defined.

End OnTheDouble.

(** ** More about the routes *)

(** Name the exception whose description a goal shows. *)
Ltac name_exception :=
  first [ eexists; first [ reflexivity | split; reflexivity ]
        | eexists (Exception "Exception" _); first [ reflexivity | split; reflexivity ] ].

Section Routes.
Context {P Cred Client : Type} (rt : Runtime P Cred Client).

Abbreviation World := (World P).
Abbreviation Service := (InvoiceAgentService Client).

(** The envelope of a chat call has one of two shapes. *)
Lemma envelope_shape (self : Service) (user_message supplied : value) (w : World) :
  exists envelope w',
    process_invoice_message rt self user_message supplied w = (Return envelope, w') /\
    (success_envelope envelope \/ failure_envelope envelope).
Proof.
  unfold process_invoice_message. unfold_monad; simpl.
  destruct (truthy supplied) eqn:Htruthy; simpl.
  all: repeat (split_answer; simpl).
  all: eexists _, _; split; [reflexivity |].
  all: first [ left; eexists _, _, _; reflexivity | right; eexists _, _; reflexivity ].
Qed.

(** What the chat route can answer when the service is there. *)
Lemma chat_response_cases (service : Service) (request : Request) (w : World) :
  exists response w',
    chat_with_agent rt (Some service) request w = (Return response, w') /\
    ((response = {| status := 400; body := route_error "Missing 'message' in request body" |} /\
      w' = w) \/
     (exists e,
        response = {| status := 500;
                      body := route_error ("Internal server error: " +:+ exn_str e) |} /\
        calls w' = calls w) \/
     (exists kvs user_message envelope,
        get_json request = Return (VDict kvs) /\
        dict_lookup "message" kvs = Some user_message /\
        process_invoice_message rt service user_message (requested_thread kvs) w
          = (Return envelope, w') /\
        ((success_envelope envelope /\ response = {| status := 200; body := envelope |}) \/
         (failure_envelope envelope /\ response = {| status := 500; body := envelope |})))).
Proof.
  destruct (get_json request) as [data | e] eqn:Hjson.
  - destruct data as [| b | n | s | xs | kvs].
    + unfold chat_with_agent. execute. eexists _, _. split; [reflexivity |]. left. auto.
    + unfold chat_with_agent. execute. destruct b; simpl.
      * eexists _, _. split; [reflexivity |]. right. left. name_exception.
      * eexists _, _. split; [reflexivity |]. left. auto.
    + unfold chat_with_agent. execute. destruct (n =? 0); simpl.
      * eexists _, _. split; [reflexivity |]. left. auto.
      * eexists _, _. split; [reflexivity |]. right. left. name_exception.
    + unfold chat_with_agent. execute. destruct (String.eqb s ""); simpl.
      * eexists _, _. split; [reflexivity |]. left. auto.
      * destruct (bool_decide (is_Some (index 0 "message" s))); simpl.
        -- eexists _, _. split; [reflexivity |]. right. left. name_exception.
        -- eexists _, _. split; [reflexivity |]. left. auto.
    + unfold chat_with_agent. execute. destruct xs as [| x xs]; simpl.
      * eexists _, _. split; [reflexivity |]. left. auto.
      * destruct (py_eq_str x "message" || existsb (fun x => py_eq_str x "message") xs);
          simpl.
        -- eexists _, _. split; [reflexivity |]. right. left. name_exception.
        -- eexists _, _. split; [reflexivity |]. left. auto.
    + destruct (dict_lookup "message" kvs) as [user_message |] eqn:Hmessage.
      * destruct (envelope_shape service user_message (requested_thread kvs) w)
          as (envelope & w' & Hcall & Hshape).
        destruct Hshape as [Hok | Hfailed].
        -- exists {| status := 200; body := envelope |}, w'. split.
           ++ apply (chat_relays_envelope rt service request kvs user_message w w' envelope
                       true Hjson Hmessage Hcall).
              destruct Hok as (? & ? & ? & ->). reflexivity.
           ++ right. right. exists kvs, user_message, envelope.
              repeat split; try assumption. left. split; [assumption | reflexivity].
        -- exists {| status := 500; body := envelope |}, w'. split.
           ++ apply (chat_relays_envelope rt service request kvs user_message w w' envelope
                       false Hjson Hmessage Hcall).
              destruct Hfailed as (? & ? & ->). reflexivity.
           ++ right. right. exists kvs, user_message, envelope.
              repeat split; try assumption. right. split; [assumption | reflexivity].
      * unfold chat_with_agent. execute.
        destruct kvs as [| kv kvs]; eexists _, _; (split; [reflexivity |]); left; auto.
  - unfold chat_with_agent. execute.
    eexists _, _. split; [reflexivity |]. right. left. name_exception.
Qed.

(** What the messages route can answer when the service is there. *)
Lemma messages_response_cases (service : Service) (thread_id : value) (w : World) :
  exists response w',
    get_thread_messages rt (Some service) thread_id w = (Return response, w') /\
    ((exists conversation,
        response = {| status := 200;
                      body := [("success", VBool true); ("thread_id", thread_id);
                               ("messages", VList conversation)] |}) \/
     (exists e,
        response = {| status := 500;
                      body := route_error ("Failed to get messages: " +:+ exn_str e) |})).
Proof.
  unfold get_thread_messages. unfold_monad; simpl.
  repeat (split_answer; simpl).
  all: eexists _, _; split; [reflexivity |].
  all: first [ left; eexists; reflexivity | right; name_exception ].
Qed.

(** What the new-thread route can answer when the service is there. *)
Lemma new_thread_response_cases (service : Service) (w : World) :
  exists response w',
    create_new_thread rt (Some service) w = (Return response, w') /\
    ((exists thread created_at,
        response = {| status := 200;
                      body := [("success", VBool true); ("thread_id", thread);
                               ("created_at", VStr created_at)] |}) \/
     (exists e,
        response = {| status := 500;
                      body := route_error ("Failed to create thread: " +:+ exn_str e) |})).
Proof.
  unfold create_new_thread, datetime_now_isoformat. unfold_monad; simpl.
  repeat (split_answer; simpl).
  all: eexists _, _; split; [reflexivity |].
  all: first [ left; eexists _, _; reflexivity | right; name_exception ].
Qed.

(** X1: no route lets an exception out, whatever the service, the request
    and the platform do: each returns a response, with status 200, 400, 500
    or 503 for chat, 200, 500 or 503 for new-thread and messages, and 200
    for the health check. *)
Theorem no_route_raises (service : option Service) (request : Request)
    (thread_id : value) (w : World) :
  (exists response w',
     chat_with_agent rt service request w = (Return response, w') /\
     (status response = 200 \/ status response = 400 \/
      status response = 500 \/ status response = 503)) /\
  (exists response w',
     create_new_thread rt service w = (Return response, w') /\
     (status response = 200 \/ status response = 500 \/ status response = 503)) /\
  (exists response w',
     get_thread_messages rt service thread_id w = (Return response, w') /\
     (status response = 200 \/ status response = 500 \/ status response = 503)) /\
  (exists response w',
     health_check rt service w = (Return response, w') /\ status response = 200).
Proof.
  split; [| split; [| split]].
  - destruct service as [service |]; [| eexists _, _; split; [reflexivity | auto]].
    destruct (chat_response_cases service request w)
      as (response & w' & Hcall & [[-> _] | [(e & -> & _) | Hrelayed]]).
    + eexists _, _; split; [exact Hcall | auto].
    + eexists _, _; split; [exact Hcall | auto].
    + destruct Hrelayed as (? & ? & ? & _ & _ & _ & [[_ ->] | [_ ->]]).
      all: eexists _, _; split; [exact Hcall | auto].
  - destruct service as [service |]; [| eexists _, _; split; [reflexivity | auto]].
    destruct (new_thread_response_cases service w)
      as (response & w' & Hcall & [(? & ? & ->) | (? & ->)]).
    all: eexists _, _; split; [exact Hcall | auto].
  - destruct service as [service |]; [| eexists _, _; split; [reflexivity | auto]].
    destruct (messages_response_cases service thread_id w)
      as (response & w' & Hcall & [(? & ->) | (? & ->)]).
    all: eexists _, _; split; [exact Hcall | auto].
  - unfold health_check, datetime_now_isoformat. unfold_monad; simpl.
    destruct (now_isoformat rt (platform w)). simpl. eexists _, _. split; reflexivity.
Qed.

(** X2: in every response of the chat, new-thread and messages routes the
    success flag says whether the status is 200, and the body has an error
    text exactly when it is not. *)
Theorem status_tells_success (service : option Service) (request : Request)
    (thread_id : value) (w w' : World) (response : Response) :
  chat_with_agent rt service request w = (Return response, w') \/
  create_new_thread rt service w = (Return response, w') \/
  get_thread_messages rt service thread_id w = (Return response, w') ->
  dict_lookup "success" (body response) = Some (VBool (status response =? 200)) /\
  (status response = 200 -> dict_lookup "error" (body response) = None) /\
  (status response <> 200 ->
   exists text, dict_lookup "error" (body response) = Some (VStr text)).
Proof.
  intros Hroute.
  assert (Hshape :
    (exists d, response = {| status := 200; body := d |} /\
               dict_lookup "success" d = Some (VBool true) /\
               dict_lookup "error" d = None) \/
    (exists code d text, response = {| status := code; body := d |} /\ code <> 200 /\
               (code =? 200) = false /\
               dict_lookup "success" d = Some (VBool false) /\
               dict_lookup "error" d = Some (VStr text))).
  { destruct service as [service |].
    - destruct Hroute as [Hcall | [Hcall | Hcall]].
      + destruct (chat_response_cases service request w)
          as (response' & w'' & Hcall' & Hcases).
        rewrite Hcall in Hcall'. injection Hcall' as <- <-.
        destruct Hcases as [[-> _] | [(e & -> & _) | Hrelayed]].
        * right. eexists _, _, _. repeat split. discriminate.
        * right. eexists _, _, _. repeat split. discriminate.
        * destruct Hrelayed as (? & ? & envelope & _ & _ & _ & [[Hok ->] | [Hfailed ->]]).
          -- destruct Hok as (? & ? & ? & ->). left. eexists. repeat split.
          -- destruct Hfailed as (? & ? & ->). right. eexists _, _, _. repeat split.
             discriminate.
      + destruct (new_thread_response_cases service w)
          as (response' & w'' & Hcall' & Hcases).
        rewrite Hcall in Hcall'. injection Hcall' as <- <-.
        destruct Hcases as [(? & ? & ->) | (? & ->)].
        * left. eexists. repeat split.
        * right. eexists _, _, _. repeat split. discriminate.
      + destruct (messages_response_cases service thread_id w)
          as (response' & w'' & Hcall' & Hcases).
        rewrite Hcall in Hcall'. injection Hcall' as <- <-.
        destruct Hcases as [(? & ->) | (? & ->)].
        * left. eexists. repeat split.
        * right. eexists _, _, _. repeat split. discriminate.
    - right. exists 503, (body service_not_available), "Invoice service not available".
      destruct Hroute as [Hcall | [Hcall | Hcall]]; injection Hcall as <- _.
      all: repeat split; discriminate. }
  destruct Hshape as [(d & -> & Hsuccess & Herror)
                     | (code & d & text & -> & Hcode & Hcodeb & Hsuccess & Herror)]; simpl.
  - rewrite Hsuccess. split; [reflexivity |]. split; [auto | congruence].
  - rewrite Hsuccess, Hcodeb. split; [reflexivity |]. split; [congruence | eauto].
Qed.

(** X3: the chat route calls the platform only for a body that is a JSON
    object with the key 'message'. *)
Theorem platform_is_called_only_for_a_message (service : option Service)
    (request : Request) (w w' : World) (response : Response) :
  chat_with_agent rt service request w = (Return response, w') ->
  calls w' <> calls w ->
  exists kvs user_message,
    get_json request = Return (VDict kvs) /\
    dict_lookup "message" kvs = Some user_message.
Proof.
  intros Hcall Hcalled.
  destruct service as [service |]; [| injection Hcall as _ <-; congruence].
  destruct (chat_response_cases service request w) as (response' & w'' & Hcall' & Hcases).
  rewrite Hcall in Hcall'. injection Hcall' as <- <-.
  destruct Hcases as [[_ ->] | [(e & _ & Hsame) | Hrelayed]]; [congruence | congruence |].
  destruct Hrelayed as (kvs & user_message & _ & Hjson & Hmessage & _).
  eauto.
Qed.

(** X4: the platform calls of a chat call are an initial part of the
    protocol: the thread creation when the thread id passed is falsy, the
    post of the user message, the run for the service's agent and the
    ascending listing, in this order, each at most once and all on the
    thread the envelope names. *)
Theorem chat_calls_follow_the_protocol (self : Service) (user_message supplied : value)
    (w : World) :
  exists made,
    calls (process_invoice_message rt self user_message supplied w).2
      = (calls w ++ made)%list /\
    made `prefix_of`
      chat_protocol (agent_id self) user_message supplied
        (known_thread_id rt self supplied (platform w)).
Proof.
  unfold process_invoice_message, known_thread_id, chat_protocol. unfold_monad; simpl.
  destruct (truthy supplied) eqn:Htruthy; simpl.
  all: repeat (split_answer; simpl).
  all: rewrite <- ?app_assoc; simpl.
  all: eexists; split;
    [ first [ reflexivity | symmetry; apply app_nil_r ] | ].
  all: eexists; simpl; reflexivity.
Qed.

(** X5: when the run comes back with status "failed" the messages of the
    thread are not listed: the run is the last platform call of the chat
    call, and the platform is left as the run left it. *)
Theorem failed_run_is_not_followed_by_a_listing (self : Service)
    (user_message supplied : value) (w : World) (thread : value) (run : ThreadRun) (p' : P) :
  run_returned rt self user_message supplied (platform w) thread run p' ->
  run_status run = Return (VStr "failed") ->
  exists made,
    calls (process_invoice_message rt self user_message supplied w).2
      = (calls w ++ made)%list /\
    last made = Some (RunsCreateAndProcess thread (agent_id self)) /\
    forallb (fun c => negb (is_messages_list c)) made = true /\
    platform (process_invoice_message rt self user_message supplied w).2 = p'.
Proof.
  intros Hrun Hstatus. open_scenario.
  all: unfold process_invoice_message; execute.
  all: destruct (run_last_error run); simpl.
  all: rewrite <- ?app_assoc; simpl.
  all: eexists; split; [reflexivity |]; repeat split.
Qed.

(** X6: with a service that holds a client, the messages route makes
    exactly one platform call, the ascending listing of the thread named in
    the path, and the new-thread route exactly one, the thread creation,
    whatever the platform answers; the health check makes none and logs
    nothing. *)
Theorem routes_call_the_platform_once (service : Service) (client : Client)
    (thread_id : value) (w : World) :
  project_client service = Some client ->
  calls (get_thread_messages rt (Some service) thread_id w).2
    = (calls w ++ [MessagesList thread_id ASCENDING])%list /\
  calls (create_new_thread rt (Some service) w).2 = (calls w ++ [ThreadsCreate])%list /\
  calls (health_check rt (Some service) w).2 = calls w /\
  logged (health_check rt (Some service) w).2 = logged w.
Proof.
  intros Hclient. split; [| split; [| split]].
  - unfold get_thread_messages. execute.
    repeat (split_answer; simpl). all: reflexivity.
  - unfold create_new_thread, datetime_now_isoformat. execute.
    repeat (split_answer; simpl). all: reflexivity.
  - unfold health_check, datetime_now_isoformat. execute.
    destruct (now_isoformat rt (platform w)); reflexivity.
  - unfold health_check, datetime_now_isoformat. execute.
    destruct (now_isoformat rt (platform w)); reflexivity.
Qed.

(** X7: a service that comes out of startup holds a client and the agent
    identifier as read from the environment, and startup has made exactly
    one platform call: the lookup of that agent. *)
Theorem startup_looks_the_agent_up_once (w w' : World) (self : Service) :
  invoice_service rt w = (Some self, w') ->
  (exists client, project_client self = Some client) /\
  agent_id self = os_getenv rt "AZURE_AI_AGENT_ID" /\
  calls w' = (calls w ++ [GetAgent (os_getenv rt "AZURE_AI_AGENT_ID")])%list.
Proof.
  unfold invoice_service, InvoiceAgentService_init, setup_client.
  unfold_monad; simpl.
  destruct (DefaultAzureCredential rt (platform w)) as [[cred | e] p1]; simpl;
    [| discriminate].
  destruct (AIProjectClient rt cred _ p1) as [[client | e] p2]; simpl;
    [| discriminate].
  destruct (get_agent rt client _ p2) as [[agent | e] p3]; simpl;
    [| discriminate].
  intros [= <- <-]. simpl. eauto.
Qed.

(** The loop only appends records, at most one for each message, and
    comes to an end only when the listing does. *)
Lemma format_loop_appends (items : list ThreadMessage) (fault : option exn)
    (conversation result : list value) (p p' : P) :
  format_loop rt items fault conversation p = (Return result, p') ->
  fault = None /\
  exists added,
    result = (conversation ++ added)%list /\
    (length added <= length items)%nat /\
    Forall is_record added.
Proof.
  revert conversation p.
  induction items as [| msg items IH]; intros conversation p; simpl.
  - destruct fault; [discriminate |]. intros [= <- _]. split; [reflexivity |].
    exists []. rewrite app_nil_r.
    split; [reflexivity |]. split; [simpl; lia | constructor].
  - unfold_monad; simpl.
    destruct (msg_text_messages msg) as [[| t ts] | e]; simpl; [| | discriminate].
    + intros Hrest. destruct (IH _ _ Hrest) as (Hfault & added & -> & Hlen & Hrecords).
      split; [exact Hfault |]. exists added.
      split; [reflexivity |]. split; [simpl; lia | exact Hrecords].
    + destruct (msg_role msg) as [role | e]; simpl; [| discriminate].
      destruct (py_last (t :: ts)) as [last_text | e]; simpl; [| discriminate].
      destruct (text_value last_text) as [content | e]; simpl; [| discriminate].
      unfold datetime_now_isoformat.
      destruct (msg_created_at msg) as [[timestamp | e] |]; simpl; [| discriminate |].
      2: destruct (now_isoformat rt p) as [timestamp p1]; simpl.
      all: intros Hrest;
        destruct (IH _ _ Hrest) as (Hfault & added & -> & Hlen & Hrecords).
      all: split; [exact Hfault |].
      all: eexists (_ :: added); rewrite <- app_assoc; simpl.
      all: split; [reflexivity |]; split; [lia |]; constructor; [| exact Hrecords].
      all: eexists _, _, _; reflexivity.
Qed.

(** On messages of the expected shape, a listing that breaks off raises
    what it broke off with. *)
Lemma format_loop_breaks_off (ms : list PlainMessage) (e : exn)
    (conversation : list value) (p : P) :
  format_loop rt (as_thread_message <$> ms) (Some e) conversation p =
    (Raise e, (records rt ms p).2).
Proof.
  revert conversation p.
  induction ms as [| m ms IH]; intros conversation p; simpl; [reflexivity |].
  unfold_monad; simpl.
  destruct (plain_segments m) as [| v vs] eqn:Hsegments; simpl; [apply IH |].
  unfold py_last.
  replace (last (_ :: list_fmap _ _ _ vs))
    with ((fun v => {| text_value := Return v |}) <$> last (v :: vs))
    by (symmetry;
        exact (fmap_last (fun v => {| text_value := Return v |}) (v :: vs))).
  destruct (last (v :: vs)) as [content |] eqn:Hlast;
    [| apply last_None in Hlast; discriminate].
  simpl.
  destruct (plain_created_at m) as [t |]; simpl.
  - rewrite IH. destruct (records rt ms p) as [rs p2]. reflexivity.
  - unfold datetime_now_isoformat.
    destruct (now_isoformat rt p) as [t p1]. simpl.
    rewrite IH. destruct (records rt ms p1) as [rs p2]. reflexivity.
Qed.

(** X8: the messages route and the chat call reshape alike: when a chat
    call and a call of the messages route are handed the same listing of the
    thread, and every message in it that has text carries a creation time,
    the chat call succeeds exactly when the route answers 200, and the
    route's 'messages' are the chat's 'conversation'. *)
Theorem messages_route_agrees_with_chat (self : Service) (client : Client)
    (user_message supplied : value) (w w2 : World) (thread : value) (run : ThreadRun)
    (p3 p4 p5 : P) (run_state : value) (listing : ItemPaged)
    (envelope : Dict) (response : Response) :
  project_client self = Some client ->
  run_returned rt self user_message supplied (platform w) thread run p3 ->
  run_status run = Return run_state ->
  py_eq_str run_state "failed" = false ->
  messages_list rt client thread ASCENDING p3 = (Return listing, p4) ->
  messages_list rt client thread ASCENDING (platform w2) = (Return listing, p5) ->
  forallb stamped (paged_items listing) = true ->
  (process_invoice_message rt self user_message supplied w).1 = Return envelope ->
  (get_thread_messages rt (Some self) thread w2).1 = Return response ->
  (dict_lookup "success" envelope = Some (VBool true) <-> status response = 200) /\
  dict_lookup "conversation" envelope = dict_lookup "messages" (body response).
Proof.
  intros Hclient Hrun Hstatus Hnot_failed Hchat_list Hroute_list Hstamped.
  pose proof (format_loop_stamped rt (paged_items listing) (paged_fault listing) [] p4 p5
                Hstamped) as Hsame.
  open_scenario.
  all: unfold process_invoice_message, get_thread_messages; execute.
  all: unfold format_messages.
  all: destruct (format_loop rt (paged_items listing) (paged_fault listing) [] p4)
         as [c1 q1].
  all: destruct (format_loop rt (paged_items listing) (paged_fault listing) [] p5)
         as [c2 q2].
  all: simpl in Hsame; subst c2.
  all: destruct c1; simpl.
  all: intros [= <-] [= <-]; simpl.
  all: split; [split; first [discriminate | intros; reflexivity] | reflexivity].
Qed.

(** X9: a listing that breaks off with an exception after messages of the
    expected shape yields no partial result: the messages route answers 500
    with the description of that exception. *)
Theorem broken_listing_answers_500 (service : Service) (client : Client)
    (thread_id : value) (w : World) (ms : list PlainMessage) (e : exn) (p1 : P) :
  project_client service = Some client ->
  messages_list rt client thread_id ASCENDING (platform w) =
    (Return {| paged_items := as_thread_message <$> ms; paged_fault := Some e |}, p1) ->
  (get_thread_messages rt (Some service) thread_id w).1 =
    Return {| status := 500;
              body := [("success", VBool false);
                       ("error", VStr ("Failed to get messages: " +:+ exn_str e))] |}.
Proof.
  intros Hclient Hlist.
  unfold get_thread_messages. execute.
  unfold format_messages; simpl. rewrite format_loop_breaks_off. reflexivity.
Qed.

(** X10: when the messages route answers 200, the listing came to its end
    without an exception, and 'messages' holds at most one entry for each
    listed message, each a dict with exactly the keys role, content and
    timestamp, whose timestamp is a string. *)
Theorem messages_have_the_record_fields (service : Service) (client : Client)
    (thread_id : value) (w w' : World) (listing : ItemPaged) (p1 : P)
    (response : Response) :
  project_client service = Some client ->
  messages_list rt client thread_id ASCENDING (platform w) = (Return listing, p1) ->
  get_thread_messages rt (Some service) thread_id w = (Return response, w') ->
  status response = 200 ->
  paged_fault listing = None /\
  exists conversation,
    dict_lookup "messages" (body response) = Some (VList conversation) /\
    (length conversation <= length (paged_items listing))%nat /\
    Forall has_record_fields conversation.
Proof.
  intros Hclient Hlist.
  unfold get_thread_messages. execute.
  unfold format_messages.
  destruct (format_loop rt (paged_items listing) (paged_fault listing) [] p1)
    as [[conversation | e] q] eqn:Hloop; simpl.
  - intros [= <- _] _. simpl.
    destruct (format_loop_appends _ _ _ _ _ _ Hloop) as (Hfault & added & -> & Hlen & Hrec).
    split; [exact Hfault |]. exists added. repeat split; [assumption |].
    eapply Forall_impl; [exact Hrec |].
    intros v (role & content & timestamp & ->).
    eexists _, role, content, timestamp. split; reflexivity.
  - intros [= <- _]. simpl. discriminate.
Qed.


(** C7: when the endpoint or the agent identifier is absent from the
    environment, and the SDK refuses a missing value as the Azure SDK does,
    initialization fails explicitly: the exception is logged and raised
    again, and the module is left without a service; no service is built
    from null values. *)
Theorem startup_fails_without_configuration (w : World) :
  refuses_none rt ->
  os_environ rt !! "AZURE_AI_PROJECT_ENDPOINT" = None \/
  os_environ rt !! "AZURE_AI_AGENT_ID" = None ->
  exists e w',
    invoice_service rt w = (None, w') /\
    exists earlier,
      logged w' =
        (earlier ++
         [(ERROR, "Failed to setup Azure AI Project client: " +:+ exn_str e);
          (ERROR, "Failed to initialize invoice service: " +:+ exn_str e)])%list.
Proof.
  intros [Hendpoint Hagent] Habsent.
  unfold invoice_service, InvoiceAgentService_init, setup_client, os_getenv.
  unfold_monad; simpl.
  assert (Hlog : forall (l : list (Level * string)) a b c,
             (((l ++ [a]) ++ [b]) ++ [c] = (l ++ [a]) ++ [b; c])%list)
    by (intros; rewrite <- !app_assoc; reflexivity).
  destruct (DefaultAzureCredential rt (platform w)) as [[credential | e] p1]; simpl.
  - destruct (os_environ rt !! "AZURE_AI_PROJECT_ENDPOINT") as [endpoint |] eqn:Hread.
    + destruct Habsent as [Habsent | Habsent]; [discriminate |]. rewrite Habsent.
      destruct (AIProjectClient rt credential (VStr endpoint) p1) as [[client | e] p2];
        simpl.
      * destruct (Hagent client p2) as (e & p3 & Hrefused). rewrite Hrefused. simpl.
        eexists e, _. split; [reflexivity |]. simpl. eexists. apply Hlog.
      * eexists e, _. split; [reflexivity |]. simpl. eexists. apply Hlog.
    + destruct (Hendpoint credential p1) as (e & p2 & Hrefused). rewrite Hrefused. simpl.
      eexists e, _. split; [reflexivity |]. simpl. eexists. apply Hlog.
  - eexists e, _. split; [reflexivity |]. simpl.
    exists (logged w). rewrite <- app_assoc. reflexivity.
Qed.

Lemma created_at_is_stamped (items : list ThreadMessage) :
  Forall has_created_at items -> forallb stamped items = true.
Proof.
  induction 1 as [| m items [t Hm] _ IH]; simpl; [reflexivity |].
  rewrite IH, andb_true_r. unfold stamped. rewrite Hm.
  destruct (msg_text_messages m) as [[| ? ?] | ?]; reflexivity.
Qed.

(** C9: two calls of the messages route with the same thread id, to which
    the platform hands the same listing of messages (each, as the SDK
    delivers them, with its attribute [created_at]), return the same
    response, hence the same ordered sequence of records. *)
Theorem get_thread_messages_is_idempotent (service : Service) (client : Client)
    (thread_id : value) (w1 w2 : World) (listing : ItemPaged) :
  project_client service = Some client ->
  (messages_list rt client thread_id ASCENDING (platform w1)).1 = Return listing ->
  (messages_list rt client thread_id ASCENDING (platform w2)).1 = Return listing ->
  Forall has_created_at (paged_items listing) ->
  (get_thread_messages rt (Some service) thread_id w1).1 =
  (get_thread_messages rt (Some service) thread_id w2).1.
Proof.
  intros Hclient Hfirst Hsecond Hdated.
  exact (get_thread_messages_repeatable rt service client thread_id w1 w2 listing
           Hclient Hfirst Hsecond (created_at_is_stamped _ Hdated)).
Qed.

End Routes.

(** ** The test client *)

Section ClientProperties.

#[local] Arguments String.append : simpl nomatch.

Lemma py_rstrip_tail (chars s : string) :
  exists tail,
    s = py_rstrip chars s +:+ tail /\
    Forall (fun c => char_in c chars = true) (list_ascii_of_string tail).
Proof.
  induction s as [| c s IH]; simpl.
  - exists "". split; [reflexivity | constructor].
  - destruct IH as (tail & Hsplit & Htail).
    destruct (py_rstrip chars s) as [| c' rest] eqn:Hrest.
    + simpl in Hsplit. subst tail.
      destruct (char_in c chars) eqn:Hc.
      * exists (String c s). split; [reflexivity |]. constructor; assumption.
      * exists s. split; [reflexivity | assumption].
    + exists tail. split; [| assumption].
      simpl. f_equal. exact Hsplit.
Qed.

Lemma py_rstrip_last (chars s r : string) (c : ascii) :
  py_rstrip chars s = r +:+ String c "" -> char_in c chars = false.
Proof.
  revert r. induction s as [| a s IH]; intros r; simpl.
  - destruct r; discriminate.
  - destruct (py_rstrip chars s) as [| b rest] eqn:Hrest.
    + destruct (char_in a chars) eqn:Ha.
      * destruct r; discriminate.
      * destruct r as [| a' r]; simpl.
        -- intros [= ->]. exact Ha.
        -- intros [= _ Hnil]. destruct r; discriminate.
    + destruct r as [| a' r]; simpl.
      * discriminate.
      * intros [= _ Hrest']. exact (IH r Hrest').
Qed.

Lemma py_rstrip_more (chars s : string) (c : ascii) :
  char_in c chars = true ->
  py_rstrip chars (s +:+ String c "") = py_rstrip chars s.
Proof.
  intros Hc. induction s as [| a s IH]; simpl.
  - rewrite Hc. reflexivity.
  - rewrite IH. reflexivity.
Qed.

(** X11: the client keeps the base URL without its trailing slashes: what
    it keeps does not end in a slash, what it drops is slashes only, and one
    more slash at the end of the URL gives the same client. *)
Theorem client_drops_trailing_slashes (url : string) :
  (forall r, Client.base_url (Client.init url) <> r +:+ "/") /\
  (exists tail,
     url = Client.base_url (Client.init url) +:+ tail /\
     Forall (fun c => c = "/"%char) (list_ascii_of_string tail)) /\
  Client.init (url +:+ "/") = Client.init url.
Proof.
  unfold Client.init; simpl. split; [| split].
  - intros r Hends. apply py_rstrip_last in Hends. discriminate.
  - destruct (py_rstrip_tail "/" url) as (tail & Hsplit & Htail).
    exists tail. split; [exact Hsplit |].
    eapply Forall_impl; [exact Htail |].
    intros c Hc. simpl in Hc. rewrite orb_false_r in Hc.
    apply Ascii.eqb_eq in Hc. exact Hc.
  - rewrite py_rstrip_more; reflexivity.
Qed.

Context {T : Type} (rq : Requests T).

Lemma request_is_answered (send : T -> outcome HttpResponse * T) (t : T) :
  exists v t',
    try_except (response ← send; eval (response_json response))
      (fun e => mret (Client.error_dict e)) t = (Return v, t') /\
    t' = (send t).2 /\
    ((exists response, (send t).1 = Return response /\ response_json response = Return v) \/
     (exists e, v = VDict [("error", VStr (exn_str e))] /\
                ((send t).1 = Raise e \/
                 exists response, (send t).1 = Return response /\
                                  response_json response = Raise e))).
Proof.
  unfold_monad; simpl.
  destruct (send t) as [[response | e] t'] eqn:Hsend; simpl.
  - destruct (response_json response) as [v | e] eqn:Hjson.
    + eexists _, _. split; [reflexivity |]. split; [reflexivity |]. left. eauto.
    + eexists _, _. split; [reflexivity |]. split; [reflexivity |]. right.
      exists e. split; [reflexivity |]. right. eauto.
  - eexists _, _. split; [reflexivity |]. split; [reflexivity |]. right.
    exists e. split; [reflexivity |]. left. reflexivity.
Qed.

(** X12: no method of the client raises, whatever the network does: each
    makes one request and returns the JSON of the response, or, when the
    request or the decoding of the response raises, the dict {"error":
    description}. *)
Theorem client_methods_never_raise (self : Client.InvoiceAgentClient)
    (message thread_id : value) (t : T) :
  let answered (call : M T value) (send : T -> outcome HttpResponse * T) :=
    exists v t',
      call t = (Return v, t') /\
      t' = (send t).2 /\
      ((exists response, (send t).1 = Return response /\ response_json response = Return v) \/
       (exists e, v = VDict [("error", VStr (exn_str e))] /\
                  ((send t).1 = Raise e \/
                   exists response, (send t).1 = Return response /\
                                    response_json response = Raise e))) in
  answered (Client.health_check rq self)
    (session_get rq (Client.base_url self +:+ "/")) /\
  answered (Client.create_thread rq self)
    (session_post rq (Client.base_url self +:+ "/api/invoice/new-thread") None None) /\
  answered (Client.chat rq self message thread_id)
    (session_post rq (Client.base_url self +:+ "/api/invoice/chat")
       (Some [("Content-Type", "application/json")])
       (Some (VDict (Client.chat_payload message thread_id)))) /\
  answered (Client.get_messages rq self thread_id)
    (session_get rq (Client.base_url self +:+ "/api/invoice/thread/" +:+
                     py_str rq thread_id +:+ "/messages")).
Proof.
  simpl. repeat split; apply request_is_answered.
Qed.

(** X13: [test_local] cannot get past a failed thread creation: when the
    result of [create_thread] has no truthy 'success', the function raises
    [UnboundLocalError] on [messages_result], after two requests. *)
Theorem test_local_needs_a_thread (c : Console T) (thread_result success : value) :
  (Client.create_thread rq (Client.init "http://localhost:8000")
     (Client.health_check rq (Client.init "http://localhost:8000") (net c)).2).1
    = Return thread_result ->
  py_get thread_result "success" = Return success ->
  truthy success = false ->
  exists c',
    Client.test_local rq c =
      (Raise (UnboundLocalError
                "cannot access local variable 'messages_result' where it is not associated with a value"),
       c') /\
    net c' = (Client.create_thread rq (Client.init "http://localhost:8000")
                (Client.health_check rq (Client.init "http://localhost:8000") (net c)).2).2.
Proof.
  intros Hcreate Hsuccess Hfalsy.
  destruct (request_is_answered
              (session_get rq (Client.base_url (Client.init "http://localhost:8000") +:+ "/"))
              (net c)) as (health & t1 & Hhealth & _ & _).
  destruct (request_is_answered
              (session_post rq (Client.base_url (Client.init "http://localhost:8000") +:+
                                "/api/invoice/new-thread") None None)
              t1) as (created & t2 & Hcreated & _ & _).
  fold (Client.health_check rq (Client.init "http://localhost:8000")) in Hhealth.
  fold (Client.create_thread rq (Client.init "http://localhost:8000")) in Hcreated.
  rewrite Hhealth in Hcreate. simpl in Hcreate. rewrite Hcreated in Hcreate.
  simpl in Hcreate. injection Hcreate as ->.
  unfold Client.test_local, Client.on_net, Client.print, Client.print_last_message.
  unfold_monad. cbn [net stdout]. rewrite Hhealth. cbn [net stdout fst snd].
  rewrite Hcreated. cbn [net stdout fst snd]. rewrite Hsuccess, Hfalsy.
  eexists. split; reflexivity.
Qed.

Lemma print_each_prints (items : list value) (c : Console T) :
  Client.print_each rq items c =
    (Return tt, Build_Console (net c) (stdout c ++ (py_str rq <$> items))%list).
Proof.
  revert c. induction items as [| item items IH]; intros c; simpl.
  - rewrite app_nil_r. destruct c; reflexivity.
  - unfold Client.print at 1. unfold_monad. rewrite IH. simpl.
    rewrite <- app_assoc. reflexivity.
Qed.

(** X14: [test_azure] always runs to its end, whatever the network does: it
    makes two requests and prints five lines. *)
Theorem test_azure_runs_to_its_end (app_url : string) (c : Console T) :
  exists c',
    Client.test_azure rq app_url c = (Return tt, c') /\
    length (stdout c') = (length (stdout c) + 5)%nat.
Proof.
  destruct (request_is_answered
              (session_get rq (Client.base_url (Client.init app_url) +:+ "/"))
              (net c)) as (health & t1 & Hhealth & _ & _).
  destruct (request_is_answered
              (session_post rq (Client.base_url (Client.init app_url) +:+ "/api/invoice/chat")
                 (Some [("Content-Type", "application/json")])
                 (Some (VDict (Client.chat_payload
                                 (VStr "Hi Invoice Data Extraction Agent") VNone))))
              t1) as (chat_result & t2 & Hchat & _ & _).
  fold (Client.health_check rq (Client.init app_url)) in Hhealth.
  fold (Client.chat rq (Client.init app_url) (VStr "Hi Invoice Data Extraction Agent") VNone)
    in Hchat.
  unfold Client.test_azure, Client.on_net, Client.print.
  unfold_monad. cbn [net stdout]. rewrite Hhealth. cbn [net stdout fst snd].
  rewrite Hchat. cbn [net stdout fst snd].
  eexists. split; [reflexivity |]. cbn [stdout].
  rewrite !length_app. simpl. lia.
Qed.

(** X15: when [test_local] runs to its end, the thread was created, the
    empty message sent and the messages fetched, and after seven lines of
    progress the items of the last message's decoded content were printed
    twice in a row: lines 90-93 repeat lines 83-86. *)
Theorem test_local_prints_the_last_message_twice (c c' : Console T) :
  Client.test_local rq c = (Return tt, c') ->
  exists health t1 thread_result t2 thread_id chat_result t3 messages_result t4 items,
    Client.health_check rq (Client.init "http://localhost:8000") (net c)
      = (Return health, t1) /\
    Client.create_thread rq (Client.init "http://localhost:8000") t1
      = (Return thread_result, t2) /\
    py_getitem thread_result "thread_id" = Return thread_id /\
    Client.chat rq (Client.init "http://localhost:8000") (VStr "") thread_id t2
      = (Return chat_result, t3) /\
    Client.get_messages rq (Client.init "http://localhost:8000") thread_id t3
      = (Return messages_result, t4) /\
    Client.last_message_items rq messages_result = Return items /\
    c' = Build_Console t4
           (stdout c ++
            ["Testing Invoice Agent API locally...";
             Client.newline +:+ "Health Check:";
             json_dumps rq health;
             Client.newline +:+ "Creating new thread:";
             json_dumps rq thread_result;
             Client.newline +:+ "Sending message:";
             Client.newline +:+ "Results:"] ++
            (py_str rq <$> items) ++ (py_str rq <$> items))%list.
Proof.
  unfold Client.test_local, Client.on_net, Client.print, Client.print_last_message.
  unfold_monad. cbn [net stdout].
  destruct (Client.health_check rq _ (net c)) as [[health | e] t1] eqn:Hhealth;
    cbn [net stdout fst snd]; [| discriminate].
  destruct (Client.create_thread rq _ t1) as [[thread_result | e] t2] eqn:Hcreate;
    cbn [net stdout fst snd]; [| discriminate].
  destruct (py_get thread_result "success") as [success | e]; [| discriminate].
  destruct (truthy success); cbn [net stdout fst snd]; [| discriminate].
  destruct (py_getitem thread_result "thread_id") as [thread_id | e] eqn:Hthread;
    cbn [net stdout fst snd]; [| discriminate].
  destruct (Client.chat rq _ (VStr "") thread_id t2) as [[chat_result | e] t3] eqn:Hchat;
    cbn [net stdout fst snd]; [| discriminate].
  destruct (Client.get_messages rq _ thread_id t3) as [[messages_result | e] t4]
    eqn:Hfetch; cbn [net stdout fst snd]; [| discriminate].
  destruct (py_get messages_result "messages") as [messages | e] eqn:Hmessages;
    [| discriminate].
  destruct (py_index_last messages) as [last_message | e] eqn:Hlast; [| discriminate].
  destruct (py_get last_message "content") as [msgs | e] eqn:Hcontent; [| discriminate].
  destruct (json_loads rq msgs) as [msgs_json | e] eqn:Hloads; [| discriminate].
  destruct (py_iter msgs_json) as [items | e] eqn:Hitems; [| discriminate].
  rewrite print_each_prints. cbn [net stdout].
  rewrite Hmessages, Hlast, Hcontent, Hloads, Hitems, print_each_prints.
  intros [= <-]. cbn [net stdout].
  exists health, t1, thread_result, t2, thread_id, chat_result, t3, messages_result, t4,
    items.
  split; [reflexivity |]. split; [exact Hcreate |]. split; [exact Hthread |].
  split; [exact Hchat |]. split; [exact Hfetch |]. split.
  - unfold Client.last_message_items.
    rewrite Hmessages, Hlast, Hcontent, Hloads. exact Hitems.
  - rewrite <- !app_assoc. reflexivity.
Qed.

End ClientProperties.

Section ClientAndService.
Context {P Cred Handle : Type} (rt : Runtime P Cred Handle).

(** X16: the body that the client's [chat] posts is never refused: handed
    to the chat route as it is, it is answered 200 or 500, never 400, with
    the thread identifier of the call in the body: the one passed to [chat]
    when it is truthy, otherwise the one the service creates. *)
Theorem client_chat_body_is_accepted (service : InvoiceAgentService Handle)
    (message thread_id : value) (w : World P) :
  exists response w',
    chat_with_agent rt (Some service)
      {| get_json := Return (VDict (Client.chat_payload message thread_id)) |} w
      = (Return response, w') /\
    (status response = 200 \/ status response = 500) /\
    dict_lookup "thread_id" (body response) =
      Some (known_thread_id rt service (if truthy thread_id then thread_id else VNone)
              (platform w)) /\
    (truthy thread_id = true -> dict_lookup "thread_id" (body response) = Some thread_id).
Proof.
  assert (Hmessage : dict_lookup "message" (Client.chat_payload message thread_id)
                     = Some message).
  { unfold Client.chat_payload. destruct (truthy thread_id); reflexivity. }
  assert (Hthread : requested_thread (Client.chat_payload message thread_id)
                    = if truthy thread_id then thread_id else VNone).
  { unfold Client.chat_payload, requested_thread. destruct (truthy thread_id); reflexivity. }
  destruct (envelope_of_chat rt service message
              (requested_thread (Client.chat_payload message thread_id)) w)
    as (envelope & w' & Hcall & Hcarried & b & Hsuccess).
  eexists _, w'. split; [| split; [| split]].
  - exact (chat_relays_envelope rt service
             {| get_json := Return (VDict (Client.chat_payload message thread_id)) |}
             (Client.chat_payload message thread_id) message w w' envelope b
             eq_refl Hmessage Hcall Hsuccess).
  - simpl. destruct b; auto.
  - simpl. rewrite Hcarried, Hthread. reflexivity.
  - intros Htruthy. simpl. rewrite Hcarried, Hthread.
    unfold known_thread_id. rewrite !Htruthy. reflexivity.
Qed.

End ClientAndService.

(** ** The routes, answer by answer *)

Section Answers.
Context {P Cred Client : Type} (rt : Runtime P Cred Client).

(** X17: the messages route, handed a listing of messages of the expected
    shape that comes to its end, answers 200 with the thread id of the path
    and, as 'messages', the records of the listing. *)
Theorem messages_route_returns_records (service : InvoiceAgentService Client)
    (client : Client) (thread_id : value) (w : World P) (ms : list PlainMessage) (p1 : P) :
  project_client service = Some client ->
  messages_list rt client thread_id ASCENDING (platform w) =
    (Return {| paged_items := as_thread_message <$> ms; paged_fault := None |}, p1) ->
  (get_thread_messages rt (Some service) thread_id w).1 =
    Return {| status := 200;
              body := [("success", VBool true); ("thread_id", thread_id);
                       ("messages", VList (records rt ms p1).1)] |}.
Proof.
  intros Hclient Hlist.
  unfold get_thread_messages. execute.
  unfold format_messages; simpl. rewrite format_loop_records. reflexivity.
Qed.

(** X18: the new-thread route answers 200 with the identifier of the thread
    the platform created and the time of the answer, and, when the creation
    raises, 500 with the description of the exception and no thread id. *)
Theorem new_thread_route_answers (service : InvoiceAgentService Client) (client : Client)
    (w : World P) :
  project_client service = Some client ->
  (forall thread new_id p1,
     threads_create rt client (platform w) = (Return thread, p1) ->
     thread_obj_id thread = Return new_id ->
     (create_new_thread rt (Some service) w).1 =
       Return {| status := 200;
                 body := [("success", VBool true); ("thread_id", new_id);
                          ("created_at", VStr (now_isoformat rt p1).1)] |}) /\
  (forall e p1,
     threads_create rt client (platform w) = (Raise e, p1) ->
     (create_new_thread rt (Some service) w).1 =
       Return {| status := 500;
                 body := [("success", VBool false);
                          ("error", VStr ("Failed to create thread: " +:+ exn_str e))] |}).
Proof.
  intros Hclient. split.
  - intros thread new_id p1 Hcreate Hid.
    unfold create_new_thread, datetime_now_isoformat. execute.
    destruct (now_isoformat rt p1); reflexivity.
  - intros e p1 Hcreate.
    unfold create_new_thread. execute. reflexivity.
Qed.

End Answers.

(** ** The further properties on the test doubles *)

Section MoreOnTheDoubles.
Import Double.

Lemma status_tells_success_witness :
  dict_lookup "success"
    (body {| status := 500;
             body := [("success", VBool false);
                      ("error", VStr "Failed to get messages: connection refused")] |})
    = Some (VBool false).
Proof.
  exact (proj1 (status_tells_success (runtime listing_fails) (Some service)
                  (json_request []) (VStr "t1") world0 _ _
                  (or_intror (or_intror eq_refl)))).
Defined.

Lemma platform_is_called_only_for_a_message_witness :
  exists kvs user_message,
    get_json (json_request [("message", VStr "Hello"); ("thread_id", VStr "t1")])
      = Return (VDict kvs) /\
    dict_lookup "message" kvs = Some user_message.
Proof.
  refine (platform_is_called_only_for_a_message (runtime healthy) (Some service)
            (json_request [("message", VStr "Hello"); ("thread_id", VStr "t1")])
            world0 _ _ eq_refl _).
  simpl. discriminate.
Defined.

Lemma failed_run_is_not_followed_by_a_listing_witness :
  exists made,
    calls (process_invoice_message (runtime run_fails) service (VStr "Hello") (VStr "t1")
             world0).2 = (calls world0 ++ made)%list /\
    last made = Some (RunsCreateAndProcess (VStr "t1") (agent_id service)) /\
    forallb (fun c => negb (is_messages_list c)) made = true /\
    platform (process_invoice_message (runtime run_fails) service (VStr "Hello") (VStr "t1")
                world0).2 = 0%nat.
Proof.
  assert (Hrun : run_returned (runtime run_fails) service (VStr "Hello") (VStr "t1") 0%nat
                   (VStr "t1") failed 0%nat).
  { exists tt, 0%nat, 0%nat. repeat split. apply thread_supplied. reflexivity. }
  exact (failed_run_is_not_followed_by_a_listing (runtime run_fails) service (VStr "Hello")
           (VStr "t1") world0 (VStr "t1") failed 0%nat Hrun eq_refl).
Defined.

Lemma routes_call_the_platform_once_witness :
  calls (get_thread_messages (runtime listing_fails) (Some service) (VStr "t1") world0).2
    = (calls world0 ++ [MessagesList (VStr "t1") ASCENDING])%list.
Proof.
  exact (proj1 (routes_call_the_platform_once (runtime listing_fails) service tt (VStr "t1")
                  world0 eq_refl)).
Defined.

Lemma startup_looks_the_agent_up_once_witness :
  (exists client, project_client service = Some client) /\
  agent_id service = os_getenv (runtime healthy) "AZURE_AI_AGENT_ID" /\
  calls (invoice_service (runtime healthy) world0).2
    = (calls world0 ++ [GetAgent (os_getenv (runtime healthy) "AZURE_AI_AGENT_ID")])%list.
Proof.
  exact (startup_looks_the_agent_up_once (runtime healthy) world0
           (invoice_service (runtime healthy) world0).2 service eq_refl).
Defined.

Lemma messages_route_agrees_with_chat_witness :
  dict_lookup "conversation"
    [("success", VBool true); ("thread_id", VStr "t1");
     ("conversation",
      VList [VDict [("role", VStr "user"); ("content", VStr "Hello");
                    ("timestamp", VStr "2024-12-31T23:59:58")];
             VDict [("role", VStr "assistant"); ("content", VStr "Hi, how can I help?");
                    ("timestamp", VStr "2024-12-31T23:59:59")]]);
     ("run_status", VStr "completed")]
  = dict_lookup "messages"
      (body {| status := 200;
               body := [("success", VBool true); ("thread_id", VStr "t1");
                        ("messages",
                         VList [VDict [("role", VStr "user"); ("content", VStr "Hello");
                                       ("timestamp", VStr "2024-12-31T23:59:58")];
                                VDict [("role", VStr "assistant");
                                       ("content", VStr "Hi, how can I help?");
                                       ("timestamp", VStr "2024-12-31T23:59:59")]])] |}).
Proof.
  assert (Hrun : run_returned (runtime healthy) service (VStr "Hello") (VStr "t1") 0%nat
                   (VStr "t1") completed 0%nat).
  { exists tt, 0%nat, 0%nat. repeat split. apply thread_supplied. reflexivity. }
  exact (proj2 (messages_route_agrees_with_chat (runtime healthy) service tt (VStr "Hello")
                  (VStr "t1") world0 world0 (VStr "t1") completed 0%nat 0%nat 0%nat
                  (VStr "completed")
                  {| paged_items := [user_hello; agent_reply]; paged_fault := None |}
                  _ _ eq_refl Hrun eq_refl eq_refl eq_refl eq_refl eq_refl
                  eq_refl eq_refl)).
Defined.

Lemma broken_listing_answers_500_witness :
  (get_thread_messages (runtime with_broken_listing) (Some service) (VStr "t1") world0).1 =
    Return {| status := 500;
              body := [("success", VBool false);
                       ("error", VStr ("Failed to get messages: " +:+ exn_str unreachable))] |}.
Proof.
  exact (broken_listing_answers_500 (runtime with_broken_listing) service tt (VStr "t1")
           world0 plain_listing unreachable 0%nat eq_refl eq_refl).
Defined.

Lemma messages_have_the_record_fields_witness :
  paged_fault {| paged_items := [user_hello; image_only; agent_reply]; paged_fault := None |}
    = None /\
  exists conversation,
    dict_lookup "messages"
      (body
         {| status := 200;
            body := [("success", VBool true); ("thread_id", VStr "t1");
                     ("messages",
                      VList [VDict [("role", VStr "user"); ("content", VStr "Hello");
                                    ("timestamp", VStr "2024-12-31T23:59:58")];
                             VDict [("role", VStr "assistant");
                                    ("content", VStr "Hi, how can I help?");
                                    ("timestamp", VStr "2024-12-31T23:59:59")]])] |})
      = Some (VList conversation) /\
    (length conversation <= 3)%nat /\
    Forall has_record_fields conversation.
Proof.
  exact (messages_have_the_record_fields (runtime with_image) service tt (VStr "t1")
           world0 _ _ 0%nat _ eq_refl eq_refl eq_refl eq_refl).
Defined.

Lemma client_chat_body_is_accepted_witness :
  exists response w',
    chat_with_agent (runtime healthy) (Some service)
      {| get_json := Return (VDict (Client.chat_payload (VStr "Hello") (VStr ""))) |} world0
      = (Return response, w') /\
    (status response = 200 \/ status response = 500) /\
    dict_lookup "thread_id" (body response) = Some (VStr "thread_new").
Proof.
  destruct (client_chat_body_is_accepted (runtime healthy) service (VStr "Hello") (VStr "")
              world0) as (response & w' & Hcall & Hstatus & Hthread & _).
  exists response, w'. repeat split; assumption.
Defined.

Lemma test_local_needs_a_thread_witness :
  exists c',
    Client.test_local (Client.answering (Return Client.unavailable)) Client.console0 =
      (Raise (UnboundLocalError
                "cannot access local variable 'messages_result' where it is not associated with a value"),
       c') /\
    net c' = 2%nat.
Proof.
  exact (test_local_needs_a_thread (Client.answering (Return Client.unavailable))
           Client.console0 _ (VBool false) eq_refl eq_refl eq_refl).
Defined.

Lemma test_local_prints_the_last_message_twice_witness :
  exists health t1 thread_result t2 thread_id chat_result t3 messages_result t4 items,
    Client.health_check (Client.answering (Return Client.obliging))
      (Client.init "http://localhost:8000") (net Client.console0) = (Return health, t1) /\
    Client.create_thread (Client.answering (Return Client.obliging))
      (Client.init "http://localhost:8000") t1 = (Return thread_result, t2) /\
    py_getitem thread_result "thread_id" = Return thread_id /\
    Client.chat (Client.answering (Return Client.obliging))
      (Client.init "http://localhost:8000") (VStr "") thread_id t2
      = (Return chat_result, t3) /\
    Client.get_messages (Client.answering (Return Client.obliging))
      (Client.init "http://localhost:8000") thread_id t3 = (Return messages_result, t4) /\
    Client.last_message_items (Client.answering (Return Client.obliging)) messages_result
      = Return items /\
    (Client.test_local (Client.answering (Return Client.obliging)) Client.console0).2 =
      Build_Console t4
        (stdout Client.console0 ++
         ["Testing Invoice Agent API locally...";
          Client.newline +:+ "Health Check:";
          Double.render health;
          Client.newline +:+ "Creating new thread:";
          Double.render thread_result;
          Client.newline +:+ "Sending message:";
          Client.newline +:+ "Results:"] ++
         (Double.render <$> items) ++ (Double.render <$> items))%list.
Proof.
  exact (test_local_prints_the_last_message_twice
           (Client.answering (Return Client.obliging)) Client.console0
           (Client.test_local (Client.answering (Return Client.obliging)) Client.console0).2
           eq_refl).
Defined.

Lemma messages_route_returns_records_witness :
  (get_thread_messages (runtime with_plain_listing) (Some service) (VStr "t1") world0).1 =
    Return {| status := 200;
              body := [("success", VBool true); ("thread_id", VStr "t1");
                       ("messages",
                        VList (records (runtime with_plain_listing) plain_listing 0%nat).1)] |}.
Proof.
  exact (messages_route_returns_records (runtime with_plain_listing) service tt (VStr "t1")
           world0 plain_listing 0%nat eq_refl eq_refl).
Defined.

Lemma new_thread_route_answers_witness :
  (create_new_thread (runtime creation_fails) (Some service) world0).1 =
    Return {| status := 500;
              body := [("success", VBool false);
                       ("error", VStr ("Failed to create thread: " +:+ exn_str unreachable))] |}.
Proof.
  exact (proj2 (new_thread_route_answers (runtime creation_fails) service tt world0 eq_refl)
           unreachable 0%nat eq_refl).
Defined.

Lemma chat_unreadable_body_500_witness :
  exists w',
    chat_with_agent (runtime healthy) (Some service) {| get_json := Raise unreachable |} world0
      = (Return {| status := 500;
                   body := [("success", VBool false);
                            ("error", VStr ("Internal server error: " +:+
                                            exn_str unreachable))] |}, w') /\
    calls w' = calls world0.
Proof.
  exact (chat_unreadable_body_500 (runtime healthy) service {| get_json := Raise unreachable |}
           unreachable world0 eq_refl).
Defined.



Lemma startup_fails_without_configuration_witness :
  os_environ (runtime no_agent_id) !! "AZURE_AI_AGENT_ID" = None /\
  exists e w',
    invoice_service (runtime no_agent_id) world0 = (None, w') /\
    exists earlier,
      logged w' =
        (earlier ++
         [(ERROR, "Failed to setup Azure AI Project client: " +:+ exn_str e);
          (ERROR, "Failed to initialize invoice service: " +:+ exn_str e)])%list.
Proof.
  assert (Hrefuses : refuses_none (runtime no_agent_id)).
  { split; intros; eexists _, _; reflexivity. }
  split; [reflexivity |].
  exact (startup_fails_without_configuration (runtime no_agent_id) world0 Hrefuses
           (or_intror eq_refl)).
Defined.

Lemma get_thread_messages_is_idempotent_witness :
  Forall has_created_at [user_hello; agent_reply] /\
  (get_thread_messages (runtime healthy) (Some service) (VStr "t1") world0).1 =
  (get_thread_messages (runtime healthy) (Some service) (VStr "t1")
     (get_thread_messages (runtime healthy) (Some service) (VStr "t1") world0).2).1.
Proof.
  assert (Hdated : Forall has_created_at [user_hello; agent_reply]).
  { repeat constructor; eexists; reflexivity. }
  split; [exact Hdated |].
  exact (get_thread_messages_is_idempotent (runtime healthy) service tt (VStr "t1") world0
           (get_thread_messages (runtime healthy) (Some service) (VStr "t1") world0).2
           {| paged_items := [user_hello; agent_reply]; paged_fault := None |}
           eq_refl eq_refl eq_refl Hdated).
Defined.

End MoreOnTheDoubles.
